(** * Asistente de análisis de datos: herramientas.py y app.py

    A shallow embedding of the tool functions of [herramientas.py] and of
    the dispatch code of [app.py], with the properties of the tool
    registry, the prompt chains, the correlation/REPL switch and the
    code-fence cleaning proved over it.

    Python [str] values are lists of Unicode code points.  Calls that leave
    the program (the chat model, [exec], the AST REPL, the Streamlit
    widgets) are the nodes of a program tree; pure pandas and LangChain
    operations whose code is not part of the repository are the fields of
    a library interface. *)

From Stdlib Require Import String Ascii DecimalPos DecimalN.
From stdpp Require Import base decidable option list numbers gmap.

Local Open Scope N_scope.

(** ** Python strings *)

Module PyStr.

(** A Python [str]: the sequence of its code points. *)
Abbreviation str := (list N).

Definition bytes_of_string (s : string) : list N :=
  List.map (fun a => N.of_nat (nat_of_ascii a)) (list_ascii_of_string s).

(** UTF-8 decoding of a source literal into code points. *)
Fixpoint utf8_decode (bs : list N) : str :=
  match bs with
  | [] => []
  | b :: r =>
      if b <? 128 then b :: utf8_decode r
      else if b <? 224 then
        match r with
        | c1 :: r1 => ((b - 192) * 64 + (c1 - 128)) :: utf8_decode r1
        | _ => []
        end
      else if b <? 240 then
        match r with
        | c1 :: c2 :: r2 =>
            ((b - 224) * 4096 + (c1 - 128) * 64 + (c2 - 128)) :: utf8_decode r2
        | _ => []
        end
      else
        match r with
        | c1 :: c2 :: c3 :: r3 =>
            ((b - 240) * 262144 + (c1 - 128) * 4096 + (c2 - 128) * 64 + (c3 - 128))
              :: utf8_decode r3
        | _ => []
        end
  end.

(** The code points of a literal of the source file. *)
Definition lit (s : string) : str := utf8_decode (bytes_of_string s).

(** [needle in s], [s.startswith(needle)] *)
Fixpoint startswith (s needle : str) {struct needle} : bool :=
  match needle, s with
  | [], _ => true
  | _ :: _, [] => false
  | n :: needle', c :: s' => (c =? n) && startswith s' needle'
  end.

Fixpoint py_in (needle s : str) : bool :=
  startswith s needle ||
  match s with
  | [] => false
  | _ :: s' => py_in needle s'
  end.

(** [s.replace(old, new)]: every leftmost non-overlapping occurrence of
    [old] is replaced; [skip] counts the characters of the occurrence just
    replaced that are still to be passed over. *)
Fixpoint replace_go (old new : str) (skip : nat) (s : str) : str :=
  match s with
  | [] => []
  | c :: s' =>
      match skip with
      | S k => replace_go old new k s'
      | O =>
          if startswith s old
          then new ++ replace_go old new (Nat.pred (length old)) s'
          else c :: replace_go old new 0 s'
      end
  end.

Definition replace (old new s : str) : str :=
  match old with
  | [] => new ++ concat (List.map (fun c => c :: new) s)
  | _ :: _ => replace_go old new 0 s
  end.

(** [sep.join(parts)] *)
Fixpoint join (sep : str) (parts : list str) : str :=
  match parts with
  | [] => []
  | [p] => p
  | p :: ps => p ++ sep ++ join sep ps
  end.

(** [str(n)] for a non-negative integer: its decimal digits. *)
Fixpoint digits_of_uint (d : Decimal.uint) : str :=
  match d with
  | Decimal.Nil => []
  | Decimal.D0 d' => 48 :: digits_of_uint d'
  | Decimal.D1 d' => 49 :: digits_of_uint d'
  | Decimal.D2 d' => 50 :: digits_of_uint d'
  | Decimal.D3 d' => 51 :: digits_of_uint d'
  | Decimal.D4 d' => 52 :: digits_of_uint d'
  | Decimal.D5 d' => 53 :: digits_of_uint d'
  | Decimal.D6 d' => 54 :: digits_of_uint d'
  | Decimal.D7 d' => 55 :: digits_of_uint d'
  | Decimal.D8 d' => 56 :: digits_of_uint d'
  | Decimal.D9 d' => 57 :: digits_of_uint d'
  end.

Definition str_of_N (n : N) : str := digits_of_uint (N.to_uint n).

(** [s.lower()].  Code points below 256 are lowered by the Latin-1 rule
    (A-Z and the accented capitals U+00C0..U+00DE except the
    multiplication sign move up by 32).  For the code points above,
    [lower_ext] stands for the Unicode table; it sees the text before and
    after the character, as the rule for the Greek final sigma needs. *)
Definition lower_latin1 (c : N) : N :=
  if (65 <=? c) && (c <=? 90) then c + 32
  else if (192 <=? c) && (c <=? 222) && negb (c =? 215) then c + 32
  else c.

Section Lower.
Variable lower_ext : str -> N -> str -> str.

Definition lower_cp (antes : str) (c : N) (despues : str) : str :=
  if c <? 256 then [lower_latin1 c] else lower_ext antes c despues.

Fixpoint lower_desde (antes s : str) : str :=
  match s with
  | [] => []
  | c :: r => lower_cp antes c r ++ lower_desde (c :: antes) r
  end.

Definition lower (s : str) : str := lower_desde [] s.
End Lower.

End PyStr.

Import PyStr.

(** ** Values, exceptions and results *)

Inductive Exn :=
| KeyError (clave : str)
| ValueError (mensaje : str)
| TypeError (mensaje : str)
| ValidationError (mensaje : str)
| OtraExcepcion (nombre mensaje : str).

Inductive Res (A : Type) :=
| Ok (a : A)
| Err (e : Exn).
Arguments Ok {A} a.
Arguments Err {A} e.

Definition res_bind {A B} (f : A -> Res B) (r : Res A) : Res B :=
  match r with
  | Ok a => f a
  | Err e => Err e
  end.

#[global] Instance res_mbind : MBind Res := @res_bind.
#[global] Instance res_mret : MRet Res := @Ok.
#[global] Instance res_fmap : FMap Res :=
  fun A B f r => match r with Ok a => Ok (f a) | Err e => Err e end.

(** The Python values a tool can hand back to the page. *)
#[warnings="-register-all"]
Inductive PyVal :=
| PNone
| PInt (z : Z)
| PStr (s : str)
| PTuple (vs : list PyVal)
| PObj (repr : str).

(** ** The dataset *)

Inductive cell :=
| NaN
| CInt (z : Z)
| CFloat (bits : N)
| CStr (s : str)
| CBool (b : bool).

#[global] Instance cell_eq_dec : EqDecision cell.
Proof. solve_decision. Defined.

(** A [pd.DataFrame]: the columns with the name of their dtype, and the
    rows. *)
Record DataFrame := {
  columnas : list (str * str);
  filas : list (list cell)
}.

(** [df.shape], [len(df)], [df.columns], [df.dtypes.items()] *)
Definition shape (df : DataFrame) : N * N :=
  (N.of_nat (length (filas df)), N.of_nat (length (columnas df))).

Definition len (df : DataFrame) : N := N.of_nat (length (filas df)).

Definition columns (df : DataFrame) : list str := (columnas df).*1.

Definition dtypes_items (df : DataFrame) : list (str * str) := columnas df.

(** [df.isnull().sum()]: per column, the number of missing cells. *)
Definition nulos_de_columna (df : DataFrame) (j : nat) : N :=
  N.of_nat (length (filter (fun fila => fila !! j = Some NaN) (filas df))).

Definition isnull_sum (df : DataFrame) : list (str * N) :=
  imap (fun j col => (col.1, nulos_de_columna df j)) (columnas df).

(** ** What pandas, LangChain and the Unicode tables provide *)

Section Frames.
Variable Float : Type.

Inductive tcell :=
| TStr (s : str)
| TNum (n : N)
| TFloat (f : Float).

(** A frame built by the tools for display: its index labels and its
    columns. *)
Record Frame := {
  fr_index : list tcell;
  fr_cols : list (str * list tcell)
}.
End Frames.
Arguments TStr {Float} s.
Arguments TNum {Float} n.
Arguments TFloat {Float} f.
Arguments fr_index {Float} _.
Arguments fr_cols {Float} _.

Class Pandas := {
  Float : Type;
  (** [(nulos / len(df) * 100).round(2)] for one column *)
  pct_round2 : N -> N -> Float;
  (** [frame.to_markdown(index=...)] *)
  to_markdown : bool -> Frame Float -> str;
  (** [df.corr(numeric_only=True)] *)
  corr_numeric_only : DataFrame -> Frame Float;
  (** [df.describe(include="number").transpose().to_string()] *)
  describe_number_to_string : DataFrame -> Res str;
  (** [df.duplicated().sum()] *)
  duplicated_sum : DataFrame -> N;
  (** the text of [list(df.columns)] inside an f-string *)
  repr_lista : list str -> str
}.

Class LangChain := {
  (** [StrOutputParser] handed a prompt value instead of a message or a
      string: what the installed langchain_core does with it. *)
  parse_prompt_value : str -> Res str
}.

Class Unicode := {
  (** [str.lower] on the code points from U+0100 on *)
  lower_ext : str -> N -> str -> str
}.

(** [range(n)] as index labels of a frame built from a dict of columns *)
Definition range_index {F} (n : nat) : list (tcell F) :=
  List.map (fun i => TNum (N.of_nat i)) (seq 0 n).

(** ** Calls that leave the program *)

(** [ChatGroq(api_key=..., model=..., temperature=...)] *)
Record ChatGroq := {
  api_key : str;
  model : str;
  temperature : Z
}.

(** The objects bound in a namespace handed to [exec] or to the REPL. *)
Inductive PyObj :=
| ODataFrame (df : DataFrame)
| OModule (nombre : str).

Inductive Llamada :=
| LlmInvoke (cliente : ChatGroq) (mensaje : str)
| Exec (script : str) (globals : gmap str PyObj)
| ReplRun (locals : gmap str PyObj) (query : str)
| StMarkdown (cuerpo : PyVal)
| StDownloadButton (etiqueta : str) (datos : PyVal) (archivo : str)
| StWarning (cuerpo : str)
| StSpinner (cuerpo : str).

Definition Respuesta (c : Llamada) : Type :=
  match c with
  | LlmInvoke _ _ => str
  | ReplRun _ _ => PyVal
  | _ => unit
  end.

(** A computation of the program: it returns, raises, or makes a call and
    goes on with the answer. *)
Inductive Prog (A : Type) :=
| Ret (a : A)
| Raise (e : Exn)
| Do (c : Llamada) (k : Respuesta c -> Prog A).
Arguments Ret {A} a.
Arguments Raise {A} e.
Arguments Do {A} c k.

Fixpoint bind {A B} (f : A -> Prog B) (p : Prog A) : Prog B :=
  match p with
  | Ret a => f a
  | Raise e => Raise e
  | Do c k => Do c (fun x => bind f (k x))
  end.

#[global] Instance prog_mbind : MBind Prog := @bind.
#[global] Instance prog_mret : MRet Prog := @Ret.

Definition lift {A} (r : Res A) : Prog A :=
  match r with
  | Ok a => Ret a
  | Err e => Raise e
  end.

(** *** Running a program

    The dataset is one object shared by reference.  [exec] and the REPL
    receive that reference in their namespace and may change the object;
    the chat model and the widgets receive text only. *)
Record Manejadores (W : Type) := {
  m_llm : ChatGroq -> str -> W -> Res str * W;
  m_exec : str -> gmap str PyObj -> DataFrame * W -> Res unit * (DataFrame * W);
  m_repl : gmap str PyObj -> str -> DataFrame * W -> Res PyVal * (DataFrame * W);
  m_ui : Llamada -> W -> Res unit * W
}.
Arguments m_llm {W} _.
Arguments m_exec {W} _.
Arguments m_repl {W} _.
Arguments m_ui {W} _.

Definition solo_mundo {W X} (f : W -> Res X * W) (s : DataFrame * W)
  : Res X * (DataFrame * W) :=
  let '(r, w) := f s.2 in (r, (s.1, w)).

Definition manejar {W} (h : Manejadores W) (c : Llamada)
  : DataFrame * W -> Res (Respuesta c) * (DataFrame * W) :=
  match c as c0 return DataFrame * W -> Res (Respuesta c0) * (DataFrame * W) with
  | LlmInvoke cliente mensaje => solo_mundo (m_llm h cliente mensaje)
  | Exec script globals => m_exec h script globals
  | ReplRun locals query => m_repl h locals query
  | StMarkdown v => solo_mundo (m_ui h (StMarkdown v))
  | StDownloadButton e d a => solo_mundo (m_ui h (StDownloadButton e d a))
  | StWarning t => solo_mundo (m_ui h (StWarning t))
  | StSpinner t => solo_mundo (m_ui h (StSpinner t))
  end.

(** The outcome of a run: the result, the final state and the calls made,
    in order. *)
Fixpoint correr {W A} (h : Manejadores W) (p : Prog A) (s : DataFrame * W)
  : Res A * (DataFrame * W) * list Llamada :=
  match p with
  | Ret a => (Ok a, s, [])
  | Raise e => (Err e, s, [])
  | Do c k =>
      match manejar h c s with
      | (Ok x, s') =>
          let '(r, s'', traza) := correr h (k x) s' in (r, s'', c :: traza)
      | (Err e, s') => (Err e, s', [c])
      end
  end.

Definition resultado {W A} (o : Res A * (DataFrame * W) * list Llamada) : Res A := o.1.1.
Definition dataset_final {W A} (o : Res A * (DataFrame * W) * list Llamada) : DataFrame := o.1.2.1.
Definition traza {W A} (o : Res A * (DataFrame * W) * list Llamada) : list Llamada := o.2.

Definition es_llm (c : Llamada) : bool :=
  match c with LlmInvoke _ _ => true | _ => false end.
Definition es_exec (c : Llamada) : bool :=
  match c with Exec _ _ => true | _ => false end.
Definition es_repl (c : Llamada) : bool :=
  match c with ReplRun _ _ => true | _ => false end.

(** ** Prompt templates and chains *)

(** [PromptTemplate(template=..., input_variables=[...])] *)
Record PromptTemplate := {
  template : str;
  input_variables : list str
}.

Fixpoint buscar (clave : str) (d : list (str * str)) : option str :=
  match d with
  | [] => None
  | (k, v) :: d' => if bool_decide (k = clave) then Some v else buscar clave d'
  end.

(** [template.format] applied to the bindings, for templates whose fields are plain
    names: [{nombre}] is replaced by the value bound to it, [{{] and [}}]
    stand for a brace. *)
Fixpoint format_go (valores : list (str * str)) (campo : option str) (t : str)
  : Res str :=
  match t with
  | [] =>
      match campo with
      | None => Ok []
      | Some _ => Err (ValueError (lit "expected '}' before end of string"))
      end
  | c :: t' =>
      match campo with
      | Some nombre =>
          if c =? 125 then
            match buscar nombre valores with
            | Some v => (fun r => v ++ r) <$> format_go valores None t'
            | None => Err (KeyError nombre)
            end
          else format_go valores (Some (nombre ++ [c])) t'
      | None =>
          if c =? 123 then
            match t' with
            | 123 :: t'' => (fun r => 123 :: r) <$> format_go valores None t''
            | _ => format_go valores (Some []) t'
            end
          else if c =? 125 then
            match t' with
            | 125 :: t'' => (fun r => 125 :: r) <$> format_go valores None t''
            | _ => Err (ValueError (lit "Single '}' encountered in format string"))
            end
          else (fun r => c :: r) <$> format_go valores None t'
      end
  end.

Definition faltantes (p : PromptTemplate) (valores : list (str * str)) : list str :=
  filter (fun v => buscar v valores = None) (input_variables p).

(** Rendering a template: every declared variable must be bound. *)
Definition format_prompt (p : PromptTemplate) (valores : list (str * str)) : Res str :=
  match faltantes p valores with
  | [] => format_go valores None (template p)
  | v :: _ => Err (KeyError v)
  end.

Inductive Runnable :=
| RPromptTemplate (p : PromptTemplate)
| RChatModel (cliente : ChatGroq)
| RStrOutputParser.

(** What flows along a chain. *)
Inductive Valor :=
| VDict (valores : list (str * str))
| VPromptValue (texto : str)
| VAIMessage (content : str)
| VStr (s : str).

Section Cadenas.
Context {lc : LangChain}.

Definition paso (r : Runnable) (v : Valor) : Prog Valor :=
  match r, v with
  | RPromptTemplate p, VDict valores =>
      texto ← lift (format_prompt p valores); Ret (VPromptValue texto)
  | RPromptTemplate _, _ => Raise (TypeError (lit "Expected mapping type as input to PromptTemplate"))
  | RChatModel cliente, VPromptValue texto =>
      Do (LlmInvoke cliente texto) (fun content => Ret (VAIMessage content))
  | RChatModel cliente, VStr texto =>
      Do (LlmInvoke cliente texto) (fun content => Ret (VAIMessage content))
  | RChatModel _, _ => Raise (ValueError (lit "Invalid input type"))
  | RStrOutputParser, VAIMessage content => Ret (VStr content)
  | RStrOutputParser, VStr s => Ret (VStr s)
  | RStrOutputParser, VPromptValue texto =>
      s ← lift (parse_prompt_value texto); Ret (VStr s)
  | RStrOutputParser, VDict _ => Raise (ValidationError (lit "Input should be a valid string"))
  end.

(** [(r1 | r2 | ...).invoke(v)] *)
Fixpoint invoke (cadena : list Runnable) (v : Valor) : Prog Valor :=
  match cadena with
  | [] => Ret v
  | r :: cadena' => v' ← paso r v; invoke cadena' v'
  end.
End Cadenas.

(** [str(v)] of a chain's output, as an f-string or the caller sees it *)
Definition py_de_valor (v : Valor) : PyVal :=
  match v with
  | VStr s => PStr s
  | VAIMessage s => PObj s
  | VPromptValue s => PObj s
  | VDict _ => PObj []
  end.

Definition texto_de_valor (v : Valor) : str :=
  match v with
  | VStr s | VAIMessage s | VPromptValue s => s
  | VDict _ => []
  end.

(** ** The texts of herramientas.py and app.py *)

Definition vacia : string := EmptyString.

(** A text given line by line; the lines are joined by a newline. *)
Definition lineas (ls : list string) : str := join [10] (List.map lit ls).

Definition texto_plantilla_informacion_df : str := Eval vm_compute in
  lineas [vacia;
    "        Eres un analista de datos senior y debes generar una narrativa profesional.";
    vacia;
    "        Datos del dataset:";
    "        - Pregunta del usuario: {pregunta}";
    "        - Filas: {n_filas}";
    "        - Columnas: {n_columnas}";
    vacia;
    "        Escribe un texto que incluya:";
    "        1. Una explicación general del dataset";
    "        2. Qué análisis son relevantes";
    "        3. Recomendaciones de preprocesamiento";
    "        4. Posibles insights";
    vacia;
    "        No repitas tablas ni dimensiones.";
    "        "]%string.

Definition plantilla_informacion_df : PromptTemplate := {|
  template := texto_plantilla_informacion_df;
  input_variables := [lit "pregunta"; lit "n_filas"; lit "n_columnas"]
|}.

Definition texto_plantilla_resumen_estadistico : str := Eval vm_compute in
  lineas [vacia;
    "        Eres un analista experto. Interpreta estas estadísticas:";
    vacia;
    "        Pregunta: {pregunta}";
    vacia;
    "        Estadísticas:";
    "        {resumen}";
    vacia;
    "        Escribe un informe que incluya:";
    "        - Interpretación columna por columna";
    "        - Señales de outliers";
    "        - Variabilidad";
    "        - Sugerencias de análisis posteriores";
    "        "]%string.

Definition plantilla_resumen_estadistico : PromptTemplate := {|
  template := texto_plantilla_resumen_estadistico;
  input_variables := [lit "pregunta"; lit "resumen"]
|}.

Definition texto_plantilla_generar_grafico : str := Eval vm_compute in
  lineas [vacia;
    "        Eres un experto en visualización. Devuelve SOLO código Python.";
    vacia;
    "        Solicitud del usuario:";
    "        "]%string ++ [34] ++ lineas ["{pregunta}"]%string ++ [34] ++ lineas [vacia;
    vacia;
    "        Dataset:";
    "        Filas: {num_filas}";
    "        Columnas:";
    "        {columnas}";
    vacia;
    "        Reglas:";
    "        - Usar matplotlib y seaborn";
    "        - sns.set_theme()";
    "        - figsize=(10,5)";
    "        - Título y etiquetas";
    "        - plt.show()";
    vacia;
    "        Código:";
    "        "]%string.

Definition plantilla_generar_grafico : PromptTemplate := {|
  template := texto_plantilla_generar_grafico;
  input_variables := [lit "pregunta"; lit "columnas"; lit "num_filas"]
|}.

Definition texto_plantilla_generar_insights : str := Eval vm_compute in
  lineas [vacia;
    "        Eres un analista senior. Responde a la pregunta: {pregunta}";
    vacia;
    "        Columnas y tipos:";
    "        {columnas}";
    vacia;
    "        Genera un informe con:";
    "        1. Patrones principales";
    "        2. Tendencias";
    "        3. Outliers relevantes";
    "        4. Variables más importantes";
    "        5. Recomendaciones accionables";
    "        "]%string.

Definition plantilla_generar_insights : PromptTemplate := {|
  template := texto_plantilla_generar_insights;
  input_variables := [lit "pregunta"; lit "columnas"]
|}.

Definition informe_general_0 : str := Eval vm_compute in
  lineas [vacia;
    "# 📊 Informe General del Dataset";
    vacia;
    "## Resumen General";
    "| Métrica | Valor |";
    "|--------|-------|";
    "| Filas | "]%string.

Definition informe_general_1 : str := Eval vm_compute in
  lineas [" |";
    "| Columnas | "]%string.

Definition informe_general_2 : str := Eval vm_compute in
  lineas [" |";
    "| Duplicados | "]%string.

Definition informe_general_3 : str := Eval vm_compute in
  lineas [" |";
    vacia;
    "---";
    vacia;
    "## Tipos de Datos";
    vacia]%string.

Definition informe_general_4 : str := Eval vm_compute in
  lineas [vacia;
    vacia;
    "---";
    vacia;
    "## Valores Nulos";
    vacia]%string.

Definition informe_general_5 : str := Eval vm_compute in
  lineas [vacia;
    vacia;
    "---";
    vacia;
    "## Narrativa Profesional";
    vacia]%string.

Definition informe_general_6 : str := Eval vm_compute in
  lineas [vacia;
    vacia]%string.


Definition informe_correlacion_0 : str := Eval vm_compute in
  lineas [vacia;
    "# 🔎 Análisis de correlación";
    vacia;
    vacia]%string.

Definition informe_correlacion_1 : str := Eval vm_compute in
  lineas [vacia;
    vacia]%string.


Definition mensaje_directo_0 : str := Eval vm_compute in
  lineas ["Eres un analista experto. ";
    "                    Responde la siguiente pregunta usando este DataFrame:";
    "                    Columnas: "]%string.

Definition mensaje_directo_1 : str := Eval vm_compute in
  lineas [vacia;
    "                    Pregunta: "]%string.

Definition mensaje_directo_2 : str := Eval vm_compute in
  lineas [vacia]%string.


(** The f-string returned by [informacion_df]. *)
Definition informe_general (n_filas n_columnas duplicados : N)
    (tabla_tipos tabla_nulos narrativa : str) : str :=
  informe_general_0 ++ str_of_N n_filas ++
  informe_general_1 ++ str_of_N n_columnas ++
  informe_general_2 ++ str_of_N duplicados ++
  informe_general_3 ++ tabla_tipos ++
  informe_general_4 ++ tabla_nulos ++
  informe_general_5 ++ narrativa ++
  informe_general_6.

(** The f-string returned by the correlation branch. *)
Definition informe_correlacion (tabla : str) : str :=
  informe_correlacion_0 ++ tabla ++ informe_correlacion_1.

(** The f-string sent by the direct question. *)
Definition mensaje_directo (lista_columnas pregunta : str) : str :=
  mensaje_directo_0 ++ lista_columnas ++ mensaje_directo_1 ++ pregunta ++
  mensaje_directo_2.

Definition fence : str := Eval vm_compute in lit "```".
Definition fence_python : str := Eval vm_compute in lit "```python".
Definition correl : str := Eval vm_compute in lit "correl".
Definition relacion : str := Eval vm_compute in lit "relación".

(** ** herramientas.py *)

Section Herramientas.
Context {pd : Pandas} {lc : LangChain} {uc : Unicode}.

(** The two frames of [informacion_df], rendered with [index=False]. *)
Definition tabla_tipos (df : DataFrame) : str :=
  let tipos := dtypes_items df in
  to_markdown false
    {| fr_index := range_index (length tipos);
       fr_cols := [(lit "Columna", List.map (fun t => TStr t.1) tipos);
                   (lit "Tipo de dato", List.map (fun t => TStr t.2) tipos)] |}.

Definition tabla_nulos (df : DataFrame) : str :=
  let nulos := isnull_sum df in
  let pct_nulos := List.map (fun c => pct_round2 c.2 (len df)) nulos in
  to_markdown false
    {| fr_index := range_index (length nulos);
       fr_cols := [(lit "Columna", List.map (fun c => TStr c.1) nulos);
                   (lit "Nulos", List.map (fun c => TNum c.2) nulos);
                   (lit "% Nulos", List.map TFloat pct_nulos)] |}.

Definition valores_informacion_df (pregunta : str) (n_filas n_columnas : N)
  : list (str * str) :=
  [(lit "pregunta", pregunta);
   (lit "n_filas", str_of_N n_filas);
   (lit "n_columnas", str_of_N n_columnas)].

Definition informacion_df (pregunta : str) (df : DataFrame) : Prog PyVal :=
  let '(n_filas, n_columnas) := shape df in
  let tabla_tipos := tabla_tipos df in
  let tabla_nulos := tabla_nulos df in
  let duplicados := duplicated_sum df in
  let plantilla := plantilla_informacion_df in
  narrativa ← invoke [RPromptTemplate plantilla; RStrOutputParser]
                (VDict (valores_informacion_df pregunta n_filas n_columnas));
  Ret (PStr (informe_general n_filas n_columnas duplicados
               tabla_tipos tabla_nulos (texto_de_valor narrativa))).

Definition resumen_estadistico (pregunta : str) (df : DataFrame) : Prog PyVal :=
  resumen ← lift (describe_number_to_string df);
  let plantilla := plantilla_resumen_estadistico in
  let cadena := [RPromptTemplate plantilla; RStrOutputParser] in
  v ← invoke cadena (VDict [(lit "pregunta", pregunta); (lit "resumen", resumen)]);
  Ret (py_de_valor v).

(** ["\n".join([f"- {col} ({dtype})" for col, dtype in df.dtypes.items()])] *)
Definition columnas_info (df : DataFrame) : str :=
  join [10]
    (List.map (fun cd => lit "- " ++ cd.1 ++ lit " (" ++ cd.2 ++ lit ")")
       (dtypes_items df)).

(** [script.replace("```python", "").replace("```", "")] *)
Definition limpiar (script : str) : str :=
  replace fence [] (replace fence_python [] script).

Definition exec_globals (df : DataFrame) : gmap str PyObj :=
  <[lit "df" := ODataFrame df]>
    (<[lit "plt" := OModule (lit "matplotlib.pyplot")]>
       (<[lit "sns" := OModule (lit "seaborn")]> ∅)).

Definition valores_generar_grafico (pregunta columnas_info : str) (num_filas : N)
  : list (str * str) :=
  [(lit "pregunta", pregunta);
   (lit "columnas", columnas_info);
   (lit "num_filas", str_of_N num_filas)].

Definition generar_grafico (pregunta : str) (df : DataFrame) : Prog PyVal :=
  let columnas_info := columnas_info df in
  let num_filas := len df in
  let plantilla := plantilla_generar_grafico in
  script ← invoke [RPromptTemplate plantilla; RStrOutputParser]
             (VDict (valores_generar_grafico pregunta columnas_info num_filas));
  let script := limpiar (texto_de_valor script) in
  Do (Exec script (exec_globals df)) (fun _ => Ret (PStr [])).

(** The test of the [if]: a trigger occurs in the lowered question. *)
Definition es_correlacion (pregunta : str) : bool :=
  let pregunta_lower := lower lower_ext pregunta in
  py_in correl pregunta_lower || py_in relacion pregunta_lower.

Definition repl_locals (df : DataFrame) : gmap str PyObj :=
  <[lit "df" := ODataFrame df]> ∅.

Definition ejecutar_python_inteligente (pregunta : str) (df : DataFrame)
  : Prog PyVal :=
  if es_correlacion pregunta then
    let corr := corr_numeric_only df in
    let tabla := to_markdown true corr in
    Ret (PStr (informe_correlacion tabla))
  else
    Do (ReplRun (repl_locals df) pregunta) (fun r => Ret r).

Definition generar_insights (pregunta : str) (df : DataFrame) : Prog PyVal :=
  let columnas_info := columnas_info df in
  let plantilla := plantilla_generar_insights in
  let cadena := [RPromptTemplate plantilla; RStrOutputParser] in
  v ← invoke cadena (VDict [(lit "pregunta", pregunta);
                            (lit "columnas", columnas_info)]);
  Ret (py_de_valor v).

(** [StructuredTool.from_function(name=..., func=..., ...)] *)
Record StructuredTool := {
  name : str;
  func : str -> Prog PyVal;
  description : str;
  return_direct : bool
}.

Definition crear_herramientas (df : DataFrame) : list StructuredTool :=
  [ {| name := lit "Informaciones DF";
       func := fun pregunta => informacion_df pregunta df;
       description := lit "Devuelve un informe general del DataFrame.";
       return_direct := true |};
    {| name := lit "Resumen Estadístico";
       func := fun pregunta => resumen_estadistico pregunta df;
       description := lit "Genera un análisis estadístico completo.";
       return_direct := true |};
    {| name := lit "Generar Gráfico";
       func := fun pregunta => generar_grafico pregunta df;
       description := lit "Crea un gráfico basado en la solicitud del usuario.";
       return_direct := true |};
    {| name := lit "Herramienta Python";
       func := fun pregunta => ejecutar_python_inteligente pregunta df;
       description := lit "Ejecuta análisis Python inteligentes sobre el DataFrame.";
       return_direct := true |};
    {| name := lit "Informe de Insights";
       func := fun pregunta => generar_insights pregunta df;
       description := lit "Genera un informe narrativo de insights del dataset.";
       return_direct := true |} ].

End Herramientas.

(** ** app.py *)

(** [c.isspace()], [s.strip()] *)
Definition isspace (c : N) : bool :=
  ((9 <=? c) && (c <=? 13)) || ((28 <=? c) && (c <=? 32)) ||
  (c =? 133) || (c =? 160) || (c =? 5760) ||
  ((8192 <=? c) && (c <=? 8202)) || (c =? 8232) || (c =? 8233) ||
  (c =? 8239) || (c =? 8287) || (c =? 12288).

Fixpoint lstrip (s : str) : str :=
  match s with
  | [] => []
  | c :: s' => if isspace c then lstrip s' else s
  end.

Definition strip (s : str) : str := rev (lstrip (rev (lstrip s))).

Section App.
Context {pd : Pandas} {lc : LangChain} {uc : Unicode}.

Definition llm (GROQ_API_KEY : str) : ChatGroq :=
  {| api_key := GROQ_API_KEY;
     model := lit "llama-3.3-70b-versatile";
     temperature := 0 |}.

(** [{t.name: t for t in tools}] *)
Definition tool_dict (tools : list StructuredTool) : gmap str StructuredTool :=
  foldl (fun d t => <[name t := t]> d) ∅ tools.

(** [llm.invoke(mensaje).content] *)
Definition preguntar_llm (llm : ChatGroq) (mensaje : str) : Prog str :=
  Do (LlmInvoke llm mensaje) (fun content => Ret content).

(** [tool.run({"pregunta": pregunta})] *)
Definition run (tool : StructuredTool) (pregunta : str) : Prog PyVal :=
  func tool pregunta.

(** [tool = tool_dict.get(nombre)] followed by [if tool: ...] *)
Definition con_herramienta (d : gmap str StructuredTool) (nombre : str)
    (cuerpo : StructuredTool -> Prog unit) : Prog unit :=
  match d !! nombre with
  | Some tool => cuerpo tool
  | None => Ret tt
  end.

(** The body shared by the three report buttons: run, show, offer the
    download. *)
Definition mostrar_informe (pregunta etiqueta archivo : str)
    (tool : StructuredTool) : Prog unit :=
  informe ← run tool pregunta;
  Do (StMarkdown informe) (fun _ =>
  Do (StDownloadButton etiqueta informe archivo) (fun _ => Ret tt)).

Definition boton_informe_general (d : gmap str StructuredTool) : Prog unit :=
  Do (StSpinner (lit "Generando informe general…")) (fun _ =>
  con_herramienta d (lit "Informaciones DF")
    (mostrar_informe (lit "Reporte general del DataFrame")
       (lit "📥 Descargar Informe General") (lit "informe_general.md"))).

Definition boton_informe_estadistico (d : gmap str StructuredTool) : Prog unit :=
  Do (StSpinner (lit "Generando análisis estadístico…")) (fun _ =>
  con_herramienta d (lit "Resumen Estadístico")
    (mostrar_informe (lit "Resumen estadístico del DataFrame")
       (lit "📥 Descargar Informe Estadístico") (lit "informe_estadistico.md"))).

Definition boton_generar_grafico (d : gmap str StructuredTool)
    (pregunta_grafico : str) : Prog unit :=
  if bool_decide (strip pregunta_grafico = []) then
    Do (StWarning (lit "Por favor, describe el gráfico que deseas generar."))
       (fun _ => Ret tt)
  else
    Do (StSpinner (lit "Generando gráfico…")) (fun _ =>
    con_herramienta d (lit "Generar Gráfico")
      (fun tool => _ ← run tool pregunta_grafico; Ret tt)).

Definition boton_informe_insights (d : gmap str StructuredTool) : Prog unit :=
  Do (StSpinner (lit "Generando insights…")) (fun _ =>
  con_herramienta d (lit "Informe de Insights")
    (mostrar_informe (lit "Genera un informe con los principales insights")
       (lit "📥 Descargar Informe de Insights") (lit "informe_insights.md"))).

Definition boton_responder_pregunta (llm : ChatGroq) (df : DataFrame)
    (pregunta : str) : Prog unit :=
  if bool_decide (strip pregunta = []) then
    Do (StWarning (lit "Por favor, escribe una pregunta.")) (fun _ => Ret tt)
  else
    Do (StSpinner (lit "Analizando…")) (fun _ =>
    respuesta ← preguntar_llm llm
                  (mensaje_directo (repr_lista (columns df)) pregunta);
    Do (StMarkdown (PStr respuesta)) (fun _ => Ret tt)).

End App.

(** ** Vocabulary of the properties *)

(** [needle] occurs in [s]. *)
Definition Contiene (needle s : str) : Prop :=
  ∃ pre post, s = pre ++ needle ++ post.

(** [c] is [n], or the capital letter whose lower case is [n]. *)
Definition mismo_sin_caja (c n : N) : Prop :=
  c = n ∨
  (c + 32 = n ∧ ((65 ≤ c ∧ c ≤ 90) ∨ (192 ≤ c ∧ c ≤ 222 ∧ c ≠ 215))).

(** [needle] occurs in [s] up to the case of the letters. *)
Definition Contiene_sin_caja (needle s : str) : Prop :=
  ∃ pre mid post, s = pre ++ mid ++ post ∧ Forall2 mismo_sin_caja mid needle.

(** A character that [lower] leaves alone. *)
Definition ya_minuscula (n : N) : Prop := n < 256 ∧ lower_latin1 n = n.


(** What the chain [plantilla | StrOutputParser()] yields on the given
    bindings: the template is rendered and the parser is handed the prompt
    value. *)
Definition salida_cadena {lc : LangChain} (p : PromptTemplate)
    (valores : list (str * str)) : Res str :=
  texto ← format_prompt p valores; parse_prompt_value texto.

(** The calls that are handed the reference to the dataset. *)
Definition recibe_dataset (c : Llamada) : bool := es_exec c || es_repl c.

(** [code] between an opening fence, with or without the language tag,
    and a closing fence. *)
Definition entre_fences (con_python : bool) (inner : str) : str :=
  (if con_python then fence_python else fence) ++ inner ++ fence.

(** *** Reading a report

    The number a report states in the table row [| etiqueta | n |]: the
    decimal numeral after the first occurrence of the label cell, closed by
    the bar of the row. *)
Fixpoint despues_de (marca s : str) : option str :=
  if startswith s marca then Some (drop (length marca) s)
  else match s with
       | [] => None
       | _ :: s' => despues_de marca s'
       end.

Definition es_digito (c : N) : bool := (48 <=? c) && (c <=? 57).

Fixpoint leer_decimal (acc : N) (s : str) : N * str :=
  match s with
  | [] => (acc, [])
  | c :: s' => if es_digito c then leer_decimal (acc * 10 + (c - 48)) s' else (acc, s)
  end.

Definition leer_campo (resto : str) : option N :=
  match resto with
  | [] => None
  | c :: _ =>
      if es_digito c then
        let '(n, fin) := leer_decimal 0 resto in
        if startswith fin [32; 124] then Some n else None
      else None
  end.

Definition marca_de (etiqueta : str) : str := [124; 32] ++ etiqueta ++ [32; 124; 32].

Definition valor_declarado (etiqueta informe : str) : option N :=
  resto ← despues_de (marca_de etiqueta) informe; leer_campo resto.

Definition Filas : str := Eval vm_compute in lit "Filas".
Definition Columnas : str := Eval vm_compute in lit "Columnas".

(** The value of a decimal numeral read from the left with [acc] before it. *)
Fixpoint valor_uint (acc : N) (d : Decimal.uint) : N :=
  match d with
  | Decimal.Nil => acc
  | Decimal.D0 d' => valor_uint (acc * 10 + 0) d'
  | Decimal.D1 d' => valor_uint (acc * 10 + 1) d'
  | Decimal.D2 d' => valor_uint (acc * 10 + 2) d'
  | Decimal.D3 d' => valor_uint (acc * 10 + 3) d'
  | Decimal.D4 d' => valor_uint (acc * 10 + 4) d'
  | Decimal.D5 d' => valor_uint (acc * 10 + 5) d'
  | Decimal.D6 d' => valor_uint (acc * 10 + 6) d'
  | Decimal.D7 d' => valor_uint (acc * 10 + 7) d'
  | Decimal.D8 d' => valor_uint (acc * 10 + 8) d'
  | Decimal.D9 d' => valor_uint (acc * 10 + 9) d'
  end.

(** ** Stand-ins for the libraries

    Small instances of the library interfaces and of the outside world,
    to run the definitions on examples. *)

Module Ejemplo.

(** Numeric dtypes, as [numeric_only=True] and [include="number"] select
    them. *)
Definition es_numerico (dtype : str) : bool :=
  bool_decide (dtype ∈ [lit "int64"; lit "float64"]).

Definition texto_celda (c : tcell str) : str :=
  match c with
  | TStr s => s
  | TNum n => str_of_N n
  | TFloat f => f
  end.

(** A plain pipe table: a header with the column names, then one line per
    index label with the cells of that row. *)
Definition tabla_markdown (index : bool) (fr : Frame str) : str :=
  let cabecera :=
    lit "|" ++ (if index then lit "  |" else []) ++
    concat (List.map (fun c => lit " " ++ c.1 ++ lit " |") (fr_cols fr)) in
  let fila (i : nat) (etiqueta : tcell str) :=
    lit "|" ++ (if index then lit " " ++ texto_celda etiqueta ++ lit " |" else []) ++
    concat (List.map
              (fun c => lit " " ++ from_option texto_celda [] (c.2 !! i) ++ lit " |")
              (fr_cols fr)) in
  join [10] (cabecera :: imap fila (fr_index fr)).

(** The numeric columns against each other; the figures are kept as text. *)
Definition matriz_corr (df : DataFrame) : Frame str :=
  let numericas := (filter (fun c => es_numerico c.2 = true) (columnas df)).*1 in
  {| fr_index := List.map TStr numericas;
     fr_cols :=
       List.map (fun a =>
                   (a, List.map (fun b =>
                                   TFloat (if bool_decide (a = b) then lit "1.0"
                                           else lit "corr(" ++ b ++ lit "," ++ a ++ lit ")"))
                         numericas))
         numericas |}.

(** The rows equal to an earlier row. *)
Fixpoint duplicados_desde (vistas : list (list cell)) (fs : list (list cell)) : N :=
  match fs with
  | [] => 0
  | f :: fs' =>
      (if bool_decide (f ∈ vistas) then 1 else 0) + duplicados_desde (f :: vistas) fs'
  end.

Definition pandas : Pandas := {|
  Float := str;
  pct_round2 := fun nulos total => str_of_N nulos ++ lit "/" ++ str_of_N total;
  to_markdown := tabla_markdown;
  corr_numeric_only := matriz_corr;
  describe_number_to_string := fun df =>
    if bool_decide (Exists (fun c => es_numerico c.2 = true) (columnas df))
    then Ok (lit "count mean std min max")
    else Err (ValueError (lit "No objects to concatenate"));
  duplicated_sum := fun df => duplicados_desde [] (filas df);
  repr_lista := fun l =>
    lit "[" ++ join (lit ", ") (List.map (fun s => lit "'" ++ s ++ lit "'") l) ++ lit "]"
|}.

(** A parser that lets the text of a prompt value through, and one that
    rejects it. *)
Definition langchain_pasa : LangChain := {|
  parse_prompt_value := fun texto => Ok texto
|}.

(** The second is what the installed langchain_core does: the prompt value
    is not a string, and validation fails. *)
Definition langchain_rechaza : LangChain := {|
  parse_prompt_value := fun _ =>
    Err (ValidationError (lit "Input should be a valid string"))
|}.

Definition unicode : Unicode := {|
  lower_ext := fun _ c _ => [c]
|}.

(** Three rows, two columns. *)
Definition df : DataFrame := {|
  columnas := [(lit "precio", lit "int64"); (lit "zona", lit "object")];
  filas := [[CInt 100; CStr (lit "norte")];
            [CInt 250; NaN];
            [CInt 100; CStr (lit "norte")]]
|}.

(** An evaluator that knows two forms of expression: [df.shape] and a sum
    of decimal literals. *)
Definition leer_digito (c : N) : option N :=
  if (48 <=? c) && (c <=? 57) then Some (c - 48) else None.

Fixpoint leer_suma (acc cur : N) (hay : bool) (s : str) : option N :=
  match s with
  | [] => if hay then Some (acc + cur) else None
  | c :: s' =>
      if c =? 43 then (if hay then leer_suma (acc + cur) 0 false s' else None)
      else match leer_digito c with
           | Some d => leer_suma acc (cur * 10 + d) true s'
           | None => None
           end
  end.

Definition evaluar (locals : gmap str PyObj) (query : str) : Res PyVal :=
  if bool_decide (query = lit "df.shape") then
    match locals !! lit "df" with
    | Some (ODataFrame d) =>
        Ok (PTuple [PInt (Z.of_N (shape d).1); PInt (Z.of_N (shape d).2)])
    | _ => Err (OtraExcepcion (lit "NameError") (lit "df"))
    end
  else
    match leer_suma 0 0 false query with
    | Some n => Ok (PInt (Z.of_N n))
    | None => Err (OtraExcepcion (lit "SyntaxError") query)
    end.

(** A world that counts nothing; [exec] empties the dataset it is given,
    the chat model echoes. *)
Definition mundo : Manejadores unit := {|
  m_llm := fun _ mensaje w => (Ok mensaje, w);
  m_exec := fun _ _ s => (Ok tt, ({| columnas := columnas s.1; filas := [] |}, s.2));
  m_repl := fun locals query s => (evaluar locals query, s);
  m_ui := fun _ w => (Ok tt, w)
|}.

End Ejemplo.

(** ** More vocabulary *)

Definition Duplicados : str := Eval vm_compute in lit "Duplicados".

(** A text made of white space only. *)
Definition en_blanco (s : str) : Prop := Forall (fun c => isspace c = true) s.

(** Every call that a program can make, whatever the answers to the
    calls before it, satisfies [P]. *)
Inductive Todas {A : Type} (P : Llamada -> Prop) : Prog A -> Prop :=
| Todas_Ret (a : A) : Todas P (Ret a)
| Todas_Raise (e : Exn) : Todas P (Raise e)
| Todas_Do (c : Llamada) (k : Respuesta c -> Prog A) :
    P c -> (forall x, Todas P (k x)) -> Todas P (Do c k).

Section Pagina.
Context {pd : Pandas} {lc : LangChain} {uc : Unicode}.

(** The bodies of the five [if st.button(...)] blocks of app.py, over the
    registry and the client that the page builds. *)
Definition manejadores_de_pagina (cliente : ChatGroq) (df : DataFrame)
    (pregunta_grafico pregunta : str) : list (Prog unit) :=
  let tools := crear_herramientas df in
  let tool_dict := tool_dict tools in
  [boton_informe_general tool_dict;
   boton_informe_estadistico tool_dict;
   boton_generar_grafico tool_dict pregunta_grafico;
   boton_informe_insights tool_dict;
   boton_responder_pregunta cliente df pregunta].
End Pagina.

Section Plantillas.
Context {pd : Pandas} {uc : Unicode}.

(** What the registry runs for a tool name on a question, as a function of
    the LangChain library in use. *)
Definition programa_de (nombre pregunta : str) (df : DataFrame)
    (lc : LangChain) : option (Prog PyVal) :=
  tool ← tool_dict (@crear_herramientas pd lc uc df) !! nombre;
  Some (run tool pregunta).

(** The tool hands the text [T] to the output parser of its chain: what
    the tool does changes with the parser's answer on [T], all other
    answers being the same. *)
Definition entrega_al_parser (f : LangChain -> option (Prog PyVal)) (T : str)
  : Prop :=
  exists lc1 lc2 : LangChain,
    (forall t, t <> T -> @parse_prompt_value lc1 t = @parse_prompt_value lc2 t) /\
    f lc1 <> f lc2.
End Plantillas.
(** * Properties *)

(** ** Substrings *)

Lemma startswith_spec (s needle : str) :
  startswith s needle = true ↔ ∃ post, s = needle ++ post.
Proof.
  revert s. induction needle as [|n needle IH]; intros s.
  - split; [intros _; by exists s | by destruct s].
  - destruct s as [|c s]; simpl.
    + split; [done | intros [post Hpost]; discriminate].
    + rewrite andb_true_iff, N.eqb_eq, IH. split.
      * intros [-> [post ->]]. by exists post.
      * intros [post Hpost]. injection Hpost as -> ->. eauto.
Qed.

Lemma startswith_false (s needle : str) :
  startswith s needle = false ↔ ¬ ∃ post, s = needle ++ post.
Proof.
  rewrite <- startswith_spec. by destruct (startswith s needle).
Qed.

Lemma py_in_unfold (needle s : str) :
  py_in needle s =
  startswith s needle || match s with [] => false | _ :: s' => py_in needle s' end.
Proof. by destruct s. Qed.

Lemma py_in_spec (needle s : str) :
  py_in needle s = true ↔ Contiene needle s.
Proof.
  split.
  - induction s as [|c s IH]; rewrite py_in_unfold, orb_true_iff.
    + intros [Hs|?]; [|done].
      apply startswith_spec in Hs as [post ->]. by exists [], post.
    + intros [Hs|Hin].
      * apply startswith_spec in Hs as [post ->]. by exists [], post.
      * destruct (IH Hin) as (pre & post & ->). by exists (c :: pre), post.
  - intros (pre & post & ->). induction pre as [|c pre IH].
    + rewrite py_in_unfold. simpl.
      replace (startswith (needle ++ post) needle) with true; [done|].
      symmetry. apply startswith_spec. by exists post.
    + rewrite py_in_unfold. simpl. rewrite IH. apply orb_true_r.
Qed.

Lemma py_in_false (needle s : str) :
  py_in needle s = false ↔ ¬ Contiene needle s.
Proof.
  rewrite <- py_in_spec. by destruct (py_in needle s).
Qed.

Lemma Contiene_app_l (needle s t : str) :
  Contiene needle s → Contiene needle (s ++ t).
Proof.
  intros (pre & post & ->). exists pre, (post ++ t). by rewrite !app_assoc.
Qed.

Lemma Contiene_app_r (needle s t : str) :
  Contiene needle t → Contiene needle (s ++ t).
Proof.
  intros (pre & post & ->). exists (s ++ pre), post. by rewrite !app_assoc.
Qed.

Lemma Contiene_cons (needle : str) (c : N) (s : str) :
  Contiene needle s → Contiene needle (c :: s).
Proof. apply (Contiene_app_r needle [c] s). Qed.

(** ** Lowering and matches regardless of case *)

Section LowerLemmas.
Variable ext : str -> N -> str -> str.

Lemma lower_cp_mismo (antes despues : str) (c n : N) :
  ya_minuscula n → mismo_sin_caja c n → lower_cp ext antes c despues = [n].
Proof.
  intros [Hlt Hfix] [->|[<- Hc]]; unfold lower_cp.
  - apply N.ltb_lt in Hlt. by rewrite Hlt, Hfix.
  - assert ((c <? 256) = true) as -> by (apply N.ltb_lt; lia).
    f_equal. unfold lower_latin1.
    destruct Hc as [[? ?]|(? & ? & ?)].
    + assert ((65 <=? c) && (c <=? 90) = true) as ->; [|done].
      apply andb_true_iff. split; apply N.leb_le; lia.
    + assert ((65 <=? c) && (c <=? 90) = false) as ->.
      { apply andb_false_iff. right. apply N.leb_gt. lia. }
      assert ((192 <=? c) && (c <=? 222) && negb (c =? 215) = true) as ->; [|done].
      rewrite !andb_true_iff, negb_true_iff, N.eqb_neq.
      repeat split; [apply N.leb_le| apply N.leb_le |]; lia.
Qed.

Lemma lower_desde_mid (antes mid needle post : str) :
  Forall ya_minuscula needle →
  Forall2 mismo_sin_caja mid needle →
  lower_desde ext antes (mid ++ post)
  = needle ++ lower_desde ext (rev mid ++ antes) post.
Proof.
  intros Hmin Hmid. revert antes.
  induction Hmid as [|c n mid needle Hcn Hmid IH]; intros antes; [done|].
  apply Forall_cons in Hmin as [Hn Hmin]. simpl.
  rewrite (lower_cp_mismo _ _ c n Hn Hcn), IH by done.
  simpl. by rewrite <- app_assoc.
Qed.

Lemma lower_desde_app (antes pre rest : str) :
  ∃ pre', lower_desde ext antes (pre ++ rest)
          = pre' ++ lower_desde ext (rev pre ++ antes) rest.
Proof.
  revert antes. induction pre as [|c pre IH]; intros antes.
  - by exists [].
  - destruct (IH (c :: antes)) as [pre' Hpre']. simpl.
    exists (lower_cp ext antes c (pre ++ rest) ++ pre').
    by rewrite Hpre', <- !app_assoc.
Qed.

(** A match regardless of case becomes an exact match after [lower]. *)
Lemma lower_contiene (needle s : str) :
  Forall ya_minuscula needle →
  Contiene_sin_caja needle s → Contiene needle (lower ext s).
Proof.
  intros Hmin (pre & mid & post & -> & Hmid). unfold lower.
  destruct (lower_desde_app [] pre (mid ++ post)) as [pre' ->].
  rewrite (lower_desde_mid _ mid needle post Hmin Hmid).
  by exists pre', (lower_desde ext (rev mid ++ rev pre ++ []) post).
Qed.

(** On a text of code points below 256, [lower] works character by
    character, and an exact match after [lower] comes from a match
    regardless of case. *)
Lemma lower_desde_latin1 (antes s : str) :
  Forall (fun c => c < 256) s → lower_desde ext antes s = lower_latin1 <$> s.
Proof.
  intros Hs. revert antes. induction Hs as [|c s Hc _ IH]; intros antes; [done|].
  simpl. unfold lower_cp. apply N.ltb_lt in Hc. by rewrite Hc, IH.
Qed.

Lemma lower_latin1_mismo (c n : N) : lower_latin1 c = n → mismo_sin_caja c n.
Proof.
  unfold lower_latin1, mismo_sin_caja.
  destruct ((65 <=? c) && (c <=? 90)) eqn:E1.
  - apply andb_true_iff in E1 as [?%N.leb_le ?%N.leb_le]. intros <-. right. lia.
  - destruct ((192 <=? c) && (c <=? 222) && negb (c =? 215)) eqn:E2; [|by left].
    apply andb_true_iff in E2 as [E2 E3].
    apply andb_true_iff in E2 as [?%N.leb_le ?%N.leb_le].
    apply negb_true_iff, N.eqb_neq in E3. intros <-. right. lia.
Qed.

Lemma contiene_lower_latin1 (needle s : str) :
  Forall (fun c => c < 256) s →
  Contiene needle (lower ext s) → Contiene_sin_caja needle s.
Proof.
  intros Hs (pre & post & E). unfold lower in E.
  rewrite lower_desde_latin1 in E by done.
  apply fmap_app_inv in E as (pre0 & resto & -> & E & ->).
  symmetry in E. apply fmap_app_inv in E as (mid & post0 & -> & -> & ->).
  exists pre0, mid, post0. split; [done|].
  clear Hs. induction mid as [|c mid IH]; constructor; [|done].
  by apply lower_latin1_mismo.
Qed.
End LowerLemmas.

Lemma correl_minuscula : Forall ya_minuscula correl.
Proof. repeat constructor. Qed.

Lemma relacion_minuscula : Forall ya_minuscula relacion.
Proof. repeat constructor. Qed.

(** ** The correlation / REPL switch of [ejecutar_python_inteligente] *)

Section Intencion.
Context {pd : Pandas} {uc : Unicode}.

Lemma es_correlacion_true (pregunta : str) :
  es_correlacion pregunta = true ↔
  Contiene correl (lower lower_ext pregunta) ∨
  Contiene relacion (lower lower_ext pregunta).
Proof.
  unfold es_correlacion. by rewrite orb_true_iff, !py_in_spec.
Qed.

Lemma es_correlacion_false (pregunta : str) :
  es_correlacion pregunta = false ↔
  ¬ Contiene correl (lower lower_ext pregunta) ∧
  ¬ Contiene relacion (lower lower_ext pregunta).
Proof.
  unfold es_correlacion. by rewrite orb_false_iff, !py_in_false.
Qed.

Lemma rama_correlacion (pregunta : str) (df : DataFrame) :
  es_correlacion pregunta = true →
  ejecutar_python_inteligente pregunta df
  = Ret (PStr (informe_correlacion (to_markdown true (corr_numeric_only df)))).
Proof. unfold ejecutar_python_inteligente. by intros ->. Qed.

Lemma rama_repl (pregunta : str) (df : DataFrame) :
  es_correlacion pregunta = false →
  ejecutar_python_inteligente pregunta df
  = Do (ReplRun (repl_locals df) pregunta) (fun r => Ret r).
Proof. unfold ejecutar_python_inteligente. by intros ->. Qed.

(** C2: a question that contains "correl", in any mix of upper and lower
    case and at any position, is answered with the text made of the
    heading line, the markdown table of the numeric-only correlation
    matrix (rendered with its index) and a closing newline; the run makes
    no call at all, so neither the chat model nor the code evaluator is
    invoked. *)
Theorem correl_va_a_correlacion (pregunta : str) (df : DataFrame) :
  Contiene_sin_caja correl pregunta →
  ejecutar_python_inteligente pregunta df
  = Ret (PStr (lineas [vacia; "# 🔎 Análisis de correlación"; vacia; vacia]%string
               ++ to_markdown true (corr_numeric_only df) ++ [10]))
  ∧ ∀ W (h : Manejadores W) (s : DataFrame * W),
      correr h (ejecutar_python_inteligente pregunta df) s
      = (Ok (PStr (lineas [vacia; "# 🔎 Análisis de correlación"; vacia; vacia]%string
                   ++ to_markdown true (corr_numeric_only df) ++ [10])), s, []).
Proof.
  intros Hc.
  assert (es_correlacion pregunta = true) as Htrue.
  { apply es_correlacion_true. left.
    apply lower_contiene; [apply correl_minuscula | done]. }
  split; [by rewrite (rama_correlacion _ _ Htrue)|].
  intros W h s. by rewrite (rama_correlacion _ _ Htrue).
Qed.

(** C10: a question that contains "relación", in any mix of upper and
    lower case, is answered in the same way, whether or not it contains
    "correl": the heading line, the markdown table of the numeric-only
    correlation matrix and a closing newline come back, and the run makes
    no call, so the code evaluator is not invoked. *)
Theorem relacion_va_a_correlacion (pregunta : str) (df : DataFrame) :
  Contiene_sin_caja relacion pregunta →
  ejecutar_python_inteligente pregunta df
  = Ret (PStr (lineas [vacia; "# 🔎 Análisis de correlación"; vacia; vacia]%string
               ++ to_markdown true (corr_numeric_only df) ++ [10]))
  ∧ ∀ W (h : Manejadores W) (s : DataFrame * W),
      correr h (ejecutar_python_inteligente pregunta df) s
      = (Ok (PStr (lineas [vacia; "# 🔎 Análisis de correlación"; vacia; vacia]%string
                   ++ to_markdown true (corr_numeric_only df) ++ [10])), s, []).
Proof.
  intros Hc.
  assert (es_correlacion pregunta = true) as Htrue.
  { apply es_correlacion_true. right.
    apply lower_contiene; [apply relacion_minuscula | done]. }
  split; [by rewrite (rama_correlacion _ _ Htrue)|].
  intros W h s. by rewrite (rama_correlacion _ _ Htrue).
Qed.

(** C3: a question whose lowered text contains neither trigger is handed
    unchanged to the REPL, whose only local is [df] bound to the dataset,
    and what the REPL answers (a value or an exception) is the result. *)
Theorem sin_disparador_va_al_repl (pregunta : str) (df : DataFrame) :
  ¬ Contiene correl (lower lower_ext pregunta) →
  ¬ Contiene relacion (lower lower_ext pregunta) →
  ejecutar_python_inteligente pregunta df
  = Do (ReplRun (repl_locals df) pregunta) (fun r => Ret r)
  ∧ repl_locals df = {[ lit "df" := ODataFrame df ]}
  ∧ ∀ W (h : Manejadores W) (s : DataFrame * W),
      resultado (correr h (ejecutar_python_inteligente pregunta df) s)
      = (m_repl h (repl_locals df) pregunta s).1
      ∧ traza (correr h (ejecutar_python_inteligente pregunta df) s)
        = [ReplRun (repl_locals df) pregunta].
Proof.
  intros Hc Hr.
  assert (es_correlacion pregunta = false) as Hfalse.
  { by apply es_correlacion_false. }
  split; [by apply rama_repl|]. split; [done|].
  intros W h s. rewrite (rama_repl _ _ Hfalse). simpl.
  by destruct (m_repl h (repl_locals df) pregunta s) as [[x|e] s'].
Qed.


(** For a question written in Latin-1, "no trigger" can be read on the
    question itself: no occurrence of a trigger up to case. *)
Lemma sin_disparador_latin1 (pregunta : str) (df : DataFrame) :
  Forall (fun c => c < 256) pregunta →
  ¬ Contiene_sin_caja correl pregunta →
  ¬ Contiene_sin_caja relacion pregunta →
  ejecutar_python_inteligente pregunta df
  = Do (ReplRun (repl_locals df) pregunta) (fun r => Ret r).
Proof.
  intros Hl Hc Hr. apply rama_repl, es_correlacion_false.
  split; intros Hin; [apply Hc | apply Hr];
    by apply (contiene_lower_latin1 lower_ext).
Qed.

End Intencion.

Lemma correl_va_a_correlacion_witness :
  Contiene_sin_caja correl (lit "What's the correlation between price and size?")
  ∧ @ejecutar_python_inteligente Ejemplo.pandas Ejemplo.unicode
      (lit "What's the correlation between price and size?") Ejemplo.df
    = Ret (PStr (lineas [vacia; "# 🔎 Análisis de correlación"; vacia;
                         "|  | precio |"; "| precio | 1.0 |"; vacia]%string)).
Proof.
  assert (Contiene_sin_caja correl
            (lit "What's the correlation between price and size?")) as Hc.
  { exists (lit "What's the "), correl, (lit "ation between price and size?").
    split; [vm_compute; reflexivity|].
    repeat (constructor; [by left|]). constructor. }
  split; [exact Hc|].
  exact (proj1 (correl_va_a_correlacion (pd:=Ejemplo.pandas) (uc:=Ejemplo.unicode)
                  _ Ejemplo.df Hc)).
Defined.

Lemma relacion_va_a_correlacion_witness :
  Contiene_sin_caja relacion (lit "¿Qué RELACIÓN hay entre precio y zona?")
  ∧ ¬ Contiene correl (lit "¿qué relación hay entre precio y zona?")
  ∧ @ejecutar_python_inteligente Ejemplo.pandas Ejemplo.unicode
      (lit "¿Qué RELACIÓN hay entre precio y zona?") Ejemplo.df
    = Ret (PStr (lineas [vacia; "# 🔎 Análisis de correlación"; vacia;
                         "|  | precio |"; "| precio | 1.0 |"; vacia]%string)).
Proof.
  assert (Contiene_sin_caja relacion
            (lit "¿Qué RELACIÓN hay entre precio y zona?")) as Hc.
  { exists (lit "¿Qué "), (lit "RELACIÓN"), (lit " hay entre precio y zona?").
    split; [vm_compute; reflexivity|].
    let mid := eval vm_compute in (lit "RELACIÓN") in
    change (lit "RELACIÓN") with mid.
    unfold relacion.
    repeat (constructor; [right; split; [reflexivity | lia]|]). constructor. }
  split; [exact Hc|]. split.
  { apply py_in_false. vm_compute. reflexivity. }
  exact (proj1 (relacion_va_a_correlacion (pd:=Ejemplo.pandas) (uc:=Ejemplo.unicode)
                  _ Ejemplo.df Hc)).
Defined.

Lemma sin_disparador_va_al_repl_witness :
  resultado (correr Ejemplo.mundo
               (@ejecutar_python_inteligente Ejemplo.pandas Ejemplo.unicode
                  (lit "2+2") Ejemplo.df) (Ejemplo.df, tt))
  = Ok (PInt 4)
  ∧ resultado (correr Ejemplo.mundo
                 (@ejecutar_python_inteligente Ejemplo.pandas Ejemplo.unicode
                    (lit "df.shape") Ejemplo.df) (Ejemplo.df, tt))
    = Ok (PTuple [PInt 3; PInt 2]).
Proof.
  split.
  - destruct (sin_disparador_va_al_repl (pd:=Ejemplo.pandas) (uc:=Ejemplo.unicode)
                (lit "2+2") Ejemplo.df) as (_ & _ & Hrun).
    + apply py_in_false. vm_compute. reflexivity.
    + apply py_in_false. vm_compute. reflexivity.
    + rewrite (proj1 (Hrun unit Ejemplo.mundo (Ejemplo.df, tt))).
      vm_compute. reflexivity.
  - destruct (sin_disparador_va_al_repl (pd:=Ejemplo.pandas) (uc:=Ejemplo.unicode)
                (lit "df.shape") Ejemplo.df) as (_ & _ & Hrun).
    + apply py_in_false. vm_compute. reflexivity.
    + apply py_in_false. vm_compute. reflexivity.
    + rewrite (proj1 (Hrun unit Ejemplo.mundo (Ejemplo.df, tt))).
      vm_compute. reflexivity.
Defined.

(** ** Running programs *)

Lemma correr_lift {W A} (h : Manejadores W) (r : Res A) (s : DataFrame * W) :
  correr h (lift r) s = (r, s, []).
Proof. by destruct r. Qed.

Lemma correr_bind {W A B} (h : Manejadores W) (f : A -> Prog B) (p : Prog A)
    (s : DataFrame * W) :
  correr h (bind f p) s =
  match correr h p s with
  | (Ok a, s', t) => let '(r, s'', t') := correr h (f a) s' in (r, s'', t ++ t')
  | (Err e, s', t) => (Err e, s', t)
  end.
Proof.
  revert s. induction p as [a|e|c k IH]; intros s; simpl.
  - by destruct (correr h (f a) s) as [[r s''] t'].
  - done.
  - destruct (manejar h c s) as [[x|e] s']; [|done].
    rewrite IH. destruct (correr h (k x) s') as [[[a|e] s''] t]; [|done].
    by destruct (correr h (f a) s'') as [[r s3] t'].
Qed.

(** The frame rule of the model: a run in which no call was handed the
    dataset leaves the dataset as it was. *)
Lemma marco {W A} (h : Manejadores W) (p : Prog A) (s : DataFrame * W) :
  Forall (fun c => recibe_dataset c = false) (traza (correr h p s)) →
  dataset_final (correr h p s) = s.1.
Proof.
  revert s. induction p as [a|e|c k IH]; intros s Hf; [done..|].
  unfold traza, dataset_final in *. simpl in *.
  destruct c; simpl in *; unfold solo_mundo in *;
    lazymatch goal with
    | |- context [m_exec h ?a ?b ?c] =>
        destruct (m_exec h a b c) as [[x|e] s'];
        [destruct (correr h (k x) s') as [[r s''] t]|];
        apply Forall_cons in Hf as [Hc _]; discriminate
    | |- context [m_repl h ?a ?b ?c] =>
        destruct (m_repl h a b c) as [[x|e] s'];
        [destruct (correr h (k x) s') as [[r s''] t]|];
        apply Forall_cons in Hf as [Hc _]; discriminate
    | |- context [m_llm h ?a ?b ?c] =>
        destruct (m_llm h a b c) as [[x|e] w]; [|done];
        specialize (IH x (s.1, w));
        destruct (correr h (k x) (s.1, w)) as [[r s''] t];
        apply Forall_cons in Hf as [_ Hf]; by apply IH
    | |- context [m_ui h ?a ?c] =>
        destruct (m_ui h a c) as [[x|e] w]; [|done];
        specialize (IH x (s.1, w));
        destruct (correr h (k x) (s.1, w)) as [[r s''] t];
        apply Forall_cons in Hf as [_ Hf]; by apply IH
    end.
Qed.

(** ** The chains of the tools *)

Section CadenasLemmas.
Context {pd : Pandas} {lc : LangChain} {uc : Unicode}.

Lemma invoke_plantilla_parser (p : PromptTemplate) (valores : list (str * str)) :
  invoke [RPromptTemplate p; RStrOutputParser] (VDict valores)
  = lift (VStr <$> salida_cadena p valores).
Proof.
  unfold salida_cadena. simpl.
  destruct (format_prompt p valores) as [texto|e]; [|done]. simpl.
  by destruct (parse_prompt_value texto).
Qed.

Lemma bind_lift {A B} (f : A -> Prog B) (r : Res A) :
  bind f (lift r) = match r with Ok a => f a | Err e => Raise e end.
Proof. by destruct r. Qed.
End CadenasLemmas.

(** ** The shape of the tools *)

Section Formas.
Context {pd : Pandas} {lc : LangChain} {uc : Unicode}.

Lemma informacion_df_forma (pregunta : str) (df : DataFrame) :
  informacion_df pregunta df
  = lift ((fun narrativa =>
             PStr (informe_general (shape df).1 (shape df).2 (duplicated_sum df)
                     (tabla_tipos df) (tabla_nulos df) narrativa))
          <$> salida_cadena plantilla_informacion_df
                (valores_informacion_df pregunta (shape df).1 (shape df).2)).
Proof.
  unfold informacion_df, shape. cbv zeta. cbn [fst snd].
  unfold mbind, prog_mbind.
  rewrite invoke_plantilla_parser.
  by destruct (salida_cadena _ _).
Qed.

Lemma resumen_estadistico_forma (pregunta : str) (df : DataFrame) :
  resumen_estadistico pregunta df
  = lift (resumen ← describe_number_to_string df;
          PStr <$> salida_cadena plantilla_resumen_estadistico
                     [(lit "pregunta", pregunta); (lit "resumen", resumen)]).
Proof.
  unfold resumen_estadistico.
  destruct (describe_number_to_string df) as [resumen|e]; [|done].
  cbv zeta. unfold mbind, prog_mbind, res_mbind. cbn [lift bind res_bind].
  rewrite invoke_plantilla_parser.
  by destruct (salida_cadena _ _).
Qed.

Lemma generar_insights_forma (pregunta : str) (df : DataFrame) :
  generar_insights pregunta df
  = lift (PStr <$> salida_cadena plantilla_generar_insights
                     [(lit "pregunta", pregunta);
                      (lit "columnas", columnas_info df)]).
Proof.
  unfold generar_insights. cbv zeta.
  unfold mbind, prog_mbind.
  rewrite invoke_plantilla_parser.
  by destruct (salida_cadena _ _).
Qed.

Lemma generar_grafico_forma (pregunta : str) (df : DataFrame) :
  generar_grafico pregunta df
  = match salida_cadena plantilla_generar_grafico
            (valores_generar_grafico pregunta (columnas_info df) (len df)) with
    | Ok script =>
        Do (Exec (limpiar script) (exec_globals df)) (fun _ => Ret (PStr []))
    | Err e => Raise e
    end.
Proof.
  unfold generar_grafico. cbv zeta.
  unfold mbind, prog_mbind.
  rewrite invoke_plantilla_parser.
  by destruct (salida_cadena _ _).
Qed.

End Formas.

(** ** What the report tools call, and what they leave untouched *)

Section Informes.
Context {pd : Pandas} {lc : LangChain} {uc : Unicode}.

Lemma traza_informacion_df {W} (h : Manejadores W) pregunta df s :
  traza (correr h (informacion_df pregunta df) s) = [].
Proof. by rewrite informacion_df_forma, correr_lift. Qed.

Lemma traza_resumen_estadistico {W} (h : Manejadores W) pregunta df s :
  traza (correr h (resumen_estadistico pregunta df) s) = [].
Proof. by rewrite resumen_estadistico_forma, correr_lift. Qed.

Lemma traza_generar_insights {W} (h : Manejadores W) pregunta df s :
  traza (correr h (generar_insights pregunta df) s) = [].
Proof. by rewrite generar_insights_forma, correr_lift. Qed.

Lemma traza_generar_grafico {W} (h : Manejadores W) pregunta df s :
  traza (correr h (generar_grafico pregunta df) s) = [] ∨
  ∃ script,
    salida_cadena plantilla_generar_grafico
      (valores_generar_grafico pregunta (columnas_info df) (len df)) = Ok script ∧
    traza (correr h (generar_grafico pregunta df) s)
    = [Exec (limpiar script) (exec_globals df)].
Proof.
  rewrite generar_grafico_forma.
  destruct (salida_cadena _ _) as [script|e]; [|by left].
  right. exists script. split; [done|]. simpl.
  by destruct (m_exec h (limpiar script) (exec_globals df) s) as [[[]|e] s'].
Qed.

(** C1, as the code has it: whatever the outside world answers, a run of
    any of the four report tools contains no call to the chat model.  The
    chains are [plantilla | StrOutputParser()], without the client. *)
Theorem informes_sin_llamada_al_modelo {W} (h : Manejadores W)
    (pregunta : str) (df : DataFrame) (s : DataFrame * W) :
  Forall (fun c => es_llm c = false)
    (traza (correr h (informacion_df pregunta df) s)) ∧
  Forall (fun c => es_llm c = false)
    (traza (correr h (resumen_estadistico pregunta df) s)) ∧
  Forall (fun c => es_llm c = false)
    (traza (correr h (generar_grafico pregunta df) s)) ∧
  Forall (fun c => es_llm c = false)
    (traza (correr h (generar_insights pregunta df) s)).
Proof.
  rewrite traza_informacion_df, traza_resumen_estadistico, traza_generar_insights.
  repeat split; try constructor.
  destruct (traza_generar_grafico h pregunta df s) as [->|(script & _ & ->)];
    by repeat constructor.
Qed.

(** C7: a run of [informacion_df], [resumen_estadistico] or
    [generar_insights] ends with the dataset it started with, for every
    question, dataset and behaviour of the outside world. *)
Theorem informes_no_mutan_dataset {W} (h : Manejadores W)
    (pregunta : str) (df : DataFrame) (s : DataFrame * W) :
  dataset_final (correr h (informacion_df pregunta df) s) = s.1 ∧
  dataset_final (correr h (resumen_estadistico pregunta df) s) = s.1 ∧
  dataset_final (correr h (generar_insights pregunta df) s) = s.1.
Proof.
  repeat split; apply marco.
  - by rewrite traza_informacion_df.
  - by rewrite traza_resumen_estadistico.
  - by rewrite traza_generar_insights.
Qed.

Lemma exec_globals_dom (df : DataFrame) :
  dom (exec_globals df) = ({[lit "df"; lit "plt"; lit "sns"]} : gset str).
Proof.
  unfold exec_globals. rewrite !dom_insert_L, dom_empty_L. set_solver.
Qed.

Lemma exec_globals_size (df : DataFrame) : size (exec_globals df) = 3%nat.
Proof.
  unfold exec_globals.
  rewrite !map_size_insert_None, map_size_empty; [done|..];
    by rewrite ?lookup_insert_ne.
Qed.

(** C5: when the chain of [generar_grafico] yields a text, the run calls
    [exec] once, on the cleaned text and the namespace [exec_globals df];
    when the chain raises, the run makes no call.  So every [exec] call of
    a run is handed that namespace, which binds exactly the three names
    [df] (the dataset), [plt] and [sns]. *)
Theorem exec_recibe_tres_nombres {W} (h : Manejadores W)
    (pregunta : str) (df : DataFrame) (s : DataFrame * W) :
  match salida_cadena plantilla_generar_grafico
          (valores_generar_grafico pregunta (columnas_info df) (len df)) with
  | Ok script =>
      traza (correr h (generar_grafico pregunta df) s)
      = [Exec (limpiar script) (exec_globals df)]
  | Err _ => traza (correr h (generar_grafico pregunta df) s) = []
  end ∧
  Forall (fun c => match c with
                   | Exec _ globals => globals = exec_globals df
                   | _ => True
                   end)
    (traza (correr h (generar_grafico pregunta df) s)) ∧
  dom (exec_globals df) = ({[lit "df"; lit "plt"; lit "sns"]} : gset str) ∧
  size (exec_globals df) = 3%nat ∧
  exec_globals df !! lit "df" = Some (ODataFrame df) ∧
  exec_globals df !! lit "plt" = Some (OModule (lit "matplotlib.pyplot")) ∧
  exec_globals df !! lit "sns" = Some (OModule (lit "seaborn")).
Proof.
  split.
  { rewrite generar_grafico_forma.
    destruct (salida_cadena _ _) as [script|e]; [|done]. simpl.
    by destruct (m_exec h (limpiar script) (exec_globals df) s) as [[[]|e] s']. }
  split.
  { destruct (traza_generar_grafico h pregunta df s) as [->|(script & _ & ->)];
      by repeat constructor. }
  split; [apply exec_globals_dom|]. split; [apply exec_globals_size|].
  unfold exec_globals. repeat split; vm_compute; reflexivity.
Qed.

End Informes.

(** With a parser that lets the prompt text through, [exec] is reached;
    it is handed the cleaned text and may change the dataset, unlike the
    report tools. *)
Example generar_grafico_llega_a_exec :
  ∃ script,
    traza (correr Ejemplo.mundo
             (@generar_grafico Ejemplo.langchain_pasa (lit "barras") Ejemplo.df)
             (Ejemplo.df, tt))
    = [Exec script (exec_globals Ejemplo.df)] ∧
    dataset_final (correr Ejemplo.mundo
             (@generar_grafico Ejemplo.langchain_pasa (lit "barras") Ejemplo.df)
             (Ejemplo.df, tt))
    ≠ Ejemplo.df.
Proof.
  eexists. split; [vm_compute; reflexivity|]. vm_compute. discriminate.
Qed.

(** The direct question, by contrast, does call the chat model, with the
    client of app.py: the fixed model name and temperature 0. *)
Example pregunta_directa_llama_al_modelo :
  filter (fun c => es_llm c)
    (traza (correr Ejemplo.mundo
              (@boton_responder_pregunta Ejemplo.pandas (llm (lit "gsk"))
                 Ejemplo.df (lit "¿Cuántas filas hay?"))
              (Ejemplo.df, tt)))
  = [LlmInvoke {| api_key := lit "gsk";
                  model := lit "llama-3.3-70b-versatile";
                  temperature := 0 |}
       (mensaje_directo (lit "['precio', 'zona']") (lit "¿Cuántas filas hay?"))].
Proof. vm_compute. reflexivity. Qed.

(** With a parser that rejects a prompt value, every report tool raises. *)
Example informacion_df_rechazada :
  resultado (correr Ejemplo.mundo
               (@informacion_df Ejemplo.pandas Ejemplo.langchain_rechaza
                  (lit "Reporte general del DataFrame") Ejemplo.df)
               (Ejemplo.df, tt))
  = Err (ValidationError (lit "Input should be a valid string")).
Proof. vm_compute. reflexivity. Qed.

(** ** Decimal numerals *)

Lemma leer_decimal_digitos (d : Decimal.uint) (acc : N) (rest : str) :
  leer_decimal acc (digits_of_uint d ++ rest) = leer_decimal (valor_uint acc d) rest.
Proof.
  revert acc. induction d; intros acc; simpl; [done|..];
    rewrite IHd; do 2 f_equal; lia.
Qed.

Lemma valor_uint_pos (d : Decimal.uint) (acc : positive) :
  valor_uint (Npos acc) d = Npos (Pos.of_uint_acc d acc).
Proof.
  revert acc. induction d; intros acc; simpl; [done|..];
    rewrite <- IHd; f_equal; lia.
Qed.

Lemma valor_uint_0 (d : Decimal.uint) : valor_uint 0 d = Pos.of_uint d.
Proof.
  induction d; simpl; [done|done|..]; by rewrite <- valor_uint_pos.
Qed.

Lemma valor_uint_to_uint (n : N) : valor_uint 0 (N.to_uint n) = n.
Proof.
  rewrite valor_uint_0. apply DecimalN.Unsigned.of_to.
Qed.

Lemma digits_of_uint_digitos (d : Decimal.uint) :
  Forall (fun c => es_digito c = true) (digits_of_uint d).
Proof. induction d; simpl; by constructor. Qed.

Lemma str_of_N_cons (n : N) :
  ∃ d ds, str_of_N n = d :: ds ∧ Forall (fun c => es_digito c = true) (d :: ds).
Proof.
  pose proof (digits_of_uint_digitos (N.to_uint n)) as Hd.
  unfold str_of_N in *.
  destruct (digits_of_uint (N.to_uint n)) as [|d ds] eqn:E; [|by eauto].
  exfalso. destruct n as [|p]; [done|]. simpl in E.
  pose proof (DecimalPos.Unsigned.to_uint_nonnil p) as Hnil.
  by destruct (Pos.to_uint p).
Qed.

Lemma leer_campo_str_of_N (n : N) (rest : str) :
  leer_campo (str_of_N n ++ 32 :: 124 :: rest) = Some n.
Proof.
  destruct (str_of_N_cons n) as (d & ds & E & Hd).
  apply Forall_cons in Hd as [Hd _].
  assert (∀ x, x = d :: ds →
            leer_campo (x ++ 32 :: 124 :: rest)
            = let '(v, fin) := leer_decimal 0 (x ++ 32 :: 124 :: rest) in
              if startswith fin [32; 124] then Some v else None) as Hgen.
  { intros x ->. unfold leer_campo. cbn [app]. by rewrite Hd. }
  rewrite (Hgen _ E). unfold str_of_N.
  by rewrite leer_decimal_digitos, valor_uint_to_uint.
Qed.

Lemma es_digito_casos (d : N) :
  es_digito d = true →
  d = 48 ∨ d = 49 ∨ d = 50 ∨ d = 51 ∨ d = 52 ∨
  d = 53 ∨ d = 54 ∨ d = 55 ∨ d = 56 ∨ d = 57.
Proof.
  unfold es_digito. rewrite andb_true_iff, !N.leb_le. lia.
Qed.

Lemma despues_de_digitos (m : str) (ds rest : str) :
  Forall (fun c => es_digito c = true) ds →
  despues_de (124 :: m) (ds ++ rest) = despues_de (124 :: m) rest.
Proof.
  induction 1 as [|d ds Hd _ IH]; [done|].
  simpl. assert ((d =? 124) = false) as ->; [|done].
  apply N.eqb_neq. apply es_digito_casos in Hd. lia.
Qed.

(** ** The counts stated by the general report *)

Lemma despues_filas (X : str) :
  despues_de (marca_de Filas) (informe_general_0 ++ X) = Some X.
Proof. vm_compute. reflexivity. Qed.

Lemma despues_columnas (nf : N) (Y : str) :
  despues_de (marca_de Columnas)
    (informe_general_0 ++ str_of_N nf ++ informe_general_1 ++ Y) = Some Y.
Proof.
  destruct (str_of_N_cons nf) as (d & ds & -> & Hd).
  apply Forall_cons in Hd as [Hd Hds].
  assert (∀ R, despues_de (marca_de Columnas) (informe_general_0 ++ d :: R)
               = despues_de (marca_de Columnas) (d :: R)) as Hpasa.
  { intros R.
    destruct (es_digito_casos d Hd)
      as [->|[->|[->|[->|[->|[->|[->|[->|[->| ->]]]]]]]]];
      vm_compute; reflexivity. }
  cbn [app]. rewrite Hpasa.
  transitivity (despues_de (marca_de Columnas) (informe_general_1 ++ Y)).
  - apply (despues_de_digitos _ (d :: ds)). by constructor.
  - vm_compute. reflexivity.
Qed.

Lemma informe_general_filas nf nc dup tt tn narr :
  valor_declarado Filas (informe_general nf nc dup tt tn narr) = Some nf.
Proof.
  unfold valor_declarado, informe_general. rewrite despues_filas.
  unfold informe_general_1. cbn [app mbind option_bind].
  apply leer_campo_str_of_N.
Qed.

Lemma informe_general_columnas nf nc dup tt tn narr :
  valor_declarado Columnas (informe_general nf nc dup tt tn narr) = Some nc.
Proof.
  unfold valor_declarado, informe_general. rewrite despues_columnas.
  unfold informe_general_2. cbn [app mbind option_bind].
  apply leer_campo_str_of_N.
Qed.

Section InformeGeneral.
Context {pd : Pandas} {lc : LangChain}.

(** C6, as the code has it: the chain of [informacion_df] holds no model,
    so the parser is handed the prompt value; with a parser that rejects
    prompt values, as the installed one does, the tool raises for every
    question and every dataset, without a call, and returns no report:
    the counts computed from [df.shape] are never stated. *)
Theorem informacion_df_sin_informe :
  (∀ texto, ∃ e, parse_prompt_value texto = Err e) →
  ∀ (pregunta : str) (df : DataFrame) W (h : Manejadores W) (s : DataFrame * W),
    ∃ e, correr h (informacion_df pregunta df) s = (Err e, s, []).
Proof.
  intros Hrechaza pregunta df W h s.
  rewrite informacion_df_forma, correr_lift. unfold salida_cadena.
  destruct (format_prompt _ _) as [texto|e]; [|by exists e].
  destruct (Hrechaza texto) as [e He]. exists e.
  unfold mbind, res_mbind. simpl. by rewrite He.
Qed.
End InformeGeneral.

Lemma informacion_df_sin_informe_witness :
  correr Ejemplo.mundo
    (@informacion_df Ejemplo.pandas Ejemplo.langchain_rechaza
       (lit "Reporte general del DataFrame") Ejemplo.df) (Ejemplo.df, tt)
  = (Err (ValidationError (lit "Input should be a valid string")),
     (Ejemplo.df, tt), []).
Proof.
  destruct (informacion_df_sin_informe (pd:=Ejemplo.pandas)
              (lc:=Ejemplo.langchain_rechaza)
              (fun _ => ex_intro _ _ eq_refl)
              (lit "Reporte general del DataFrame") Ejemplo.df
              unit Ejemplo.mundo (Ejemplo.df, tt)) as [e He].
  rewrite He. f_equal. f_equal.
  assert (fst (fst (correr Ejemplo.mundo
            (@informacion_df Ejemplo.pandas Ejemplo.langchain_rechaza
               (lit "Reporte general del DataFrame") Ejemplo.df) (Ejemplo.df, tt)))
          = Err (ValidationError (lit "Input should be a valid string"))) as Hv
    by (vm_compute; reflexivity).
  rewrite He in Hv. exact Hv.
Defined.

(** ** The tool registry *)

Section Registro.
Context {pd : Pandas} {lc : LangChain} {uc : Unicode}.

Lemma tool_dict_desde_None (tools : list StructuredTool)
    (d : gmap str StructuredTool) (n : str) :
  n ∉ name <$> tools →
  foldl (fun d t => <[name t := t]> d) d tools !! n = d !! n.
Proof.
  revert d. induction tools as [|t tools IH]; intros d Hn; [done|].
  rewrite fmap_cons, not_elem_of_cons in Hn. destruct Hn as [Hne Hn].
  simpl. rewrite IH by done. by rewrite lookup_insert_ne.
Qed.

Lemma tool_dict_desde_Some (tools : list StructuredTool)
    (d : gmap str StructuredTool) (t : StructuredTool) :
  NoDup (name <$> tools) → t ∈ tools →
  foldl (fun d t => <[name t := t]> d) d tools !! name t = Some t.
Proof.
  revert d. induction tools as [|t0 tools IH]; intros d Hnd Hin.
  - by apply elem_of_nil in Hin.
  - rewrite fmap_cons in Hnd. apply NoDup_cons in Hnd as [Hfresh Hnd].
    apply elem_of_cons in Hin as [->|Hin]; simpl.
    + rewrite tool_dict_desde_None by done. by rewrite lookup_insert_eq.
    + by apply IH.
Qed.

(** The comprehension [{t.name: t for t in tools}] over distinct names. *)
Lemma tool_dict_lookup (tools : list StructuredTool) (t : StructuredTool) :
  NoDup (name <$> tools) → t ∈ tools → tool_dict tools !! name t = Some t.
Proof. apply tool_dict_desde_Some. Qed.

Lemma tool_dict_lookup_None (tools : list StructuredTool) (n : str) :
  n ∉ name <$> tools → tool_dict tools !! n = None.
Proof. intros Hn. unfold tool_dict. by rewrite tool_dict_desde_None. Qed.

Lemma crear_herramientas_nombres (df : DataFrame) :
  name <$> crear_herramientas df
  = [lit "Informaciones DF"; lit "Resumen Estadístico"; lit "Generar Gráfico";
     lit "Herramienta Python"; lit "Informe de Insights"].
Proof. reflexivity. Qed.

Lemma crear_herramientas_NoDup (df : DataFrame) :
  NoDup (name <$> crear_herramientas df).
Proof.
  rewrite crear_herramientas_nombres.
  apply (bool_decide_unpack _). vm_compute. reflexivity.
Qed.

(** C9: in the registry built from [crear_herramientas df], the name of
    each tool leads to that very tool; a name that no tool carries leads
    to nothing, and the dispatch [tool = tool_dict.get(n); if tool: ...]
    then returns at once: no call is made and no exception is raised. *)
Theorem registro_busqueda_y_despacho (df : DataFrame) :
  (∀ t, t ∈ crear_herramientas df →
        tool_dict (crear_herramientas df) !! name t = Some t) ∧
  (∀ n, n ∉ name <$> crear_herramientas df →
        tool_dict (crear_herramientas df) !! n = None ∧
        ∀ cuerpo, con_herramienta (tool_dict (crear_herramientas df)) n cuerpo
                  = Ret tt).
Proof.
  split.
  - intros t Hin. apply tool_dict_lookup; [apply crear_herramientas_NoDup | done].
  - intros n Hn. pose proof (tool_dict_lookup_None _ n Hn) as Hnone.
    split; [done|]. intros cuerpo. unfold con_herramienta. by rewrite Hnone.
Qed.

(** The four names that app.py looks up are registered, so its buttons
    always reach their tool. *)
Lemma botones_encuentran_herramienta (df : DataFrame) :
  Forall (fun n => is_Some (tool_dict (crear_herramientas df) !! n))
    [lit "Informaciones DF"; lit "Resumen Estadístico"; lit "Generar Gráfico";
     lit "Informe de Insights"].
Proof.
  repeat (apply Forall_cons; split); [..|apply Forall_nil];
    eexists; vm_compute; reflexivity.
Qed.

End Registro.

Lemma registro_busqueda_y_despacho_witness :
  (∃ t, tool_dict (@crear_herramientas Ejemplo.pandas Ejemplo.langchain_pasa
                     Ejemplo.unicode Ejemplo.df)
          !! lit "Herramienta Python" = Some t ∧
        func t (lit "2+2")
        = @ejecutar_python_inteligente Ejemplo.pandas Ejemplo.unicode
            (lit "2+2") Ejemplo.df) ∧
  con_herramienta
    (tool_dict (@crear_herramientas Ejemplo.pandas Ejemplo.langchain_pasa
                  Ejemplo.unicode Ejemplo.df))
    (lit "Exportar PDF") (fun tool => _ ← run tool (lit "x"); Ret tt)
  = Ret tt.
Proof.
  pose proof (registro_busqueda_y_despacho
                (pd:=Ejemplo.pandas) (lc:=Ejemplo.langchain_pasa)
                (uc:=Ejemplo.unicode) Ejemplo.df) as [Hsi Hno].
  split.
  - eexists. split.
    + apply (Hsi {| name := lit "Herramienta Python";
                    func := fun pregunta =>
                      @ejecutar_python_inteligente Ejemplo.pandas Ejemplo.unicode
                        pregunta Ejemplo.df;
                    description :=
                      lit "Ejecuta análisis Python inteligentes sobre el DataFrame.";
                    return_direct := true |}).
      unfold crear_herramientas.
      do 3 apply list_elem_of_further. apply list_elem_of_here.
    + reflexivity.
  - apply Hno. apply (bool_decide_unpack _). vm_compute. reflexivity.
Defined.

(** ** [str.replace] and the cleaning of code fences *)

Lemma replace_go_skip (old new : str) (k : nat) (s : str) :
  replace_go old new k s = replace_go old new 0 (drop k s).
Proof.
  revert k. induction s as [|c s IH]; intros k; [by destruct k|].
  destruct k as [|k]; [done|]. simpl. apply IH.
Qed.

Lemma replace_nil (old new : str) : old ≠ [] → replace old new [] = [].
Proof. by destruct old. Qed.

Lemma replace_match (old new s : str) :
  old ≠ [] → startswith s old = true →
  replace old new s = new ++ replace old new (drop (length old) s).
Proof.
  intros Hold Hs. destruct old as [|o old]; [done|].
  destruct s as [|c s]; [done|].
  unfold replace. cbn [replace_go]. rewrite Hs.
  by rewrite replace_go_skip.
Qed.

Lemma replace_nomatch (old new : str) (c : N) (s : str) :
  old ≠ [] → startswith (c :: s) old = false →
  replace old new (c :: s) = c :: replace old new s.
Proof.
  intros Hold Hs. destruct old as [|o old]; [done|].
  unfold replace. cbn [replace_go]. by rewrite Hs.
Qed.

Lemma replace_prefijo (old new s : str) :
  old ≠ [] → replace old new (old ++ s) = new ++ replace old new s.
Proof.
  intros Hold. rewrite replace_match; [|done|].
  - by rewrite drop_app_length.
  - apply startswith_spec. by exists s.
Qed.

Lemma replace_no_ocurre (old new s : str) :
  old ≠ [] → ¬ Contiene old s → replace old new s = s.
Proof.
  intros Hold. induction s as [|c s IH]; intros Hno; [by apply replace_nil|].
  rewrite replace_nomatch; [|done|].
  - f_equal. apply IH. intros Hs. by apply Hno, Contiene_cons.
  - apply startswith_false. intros [post Hpost]. apply Hno.
    exists [], post. by rewrite Hpost.
Qed.

(** An occurrence of a text that ends in [x] cannot end inside a tail
    without [x]. *)
Lemma Contiene_no_termina_en (old' : str) (x : N) (s t : str) :
  Forall (fun c => c ≠ x) t →
  Contiene (old' ++ [x]) (s ++ t) → Contiene (old' ++ [x]) s.
Proof.
  intros Ht (pre & post & E).
  rewrite <- (app_assoc old'), (app_assoc pre) in E. simpl in E.
  apply app_eq_app in E as [l [[-> E]|[E ->]]].
  - destruct l as [|x' l].
    + simpl in E. subst t. apply Forall_cons in Ht as [Hx _]. done.
    + injection E as <- _. exists pre, l.
      by rewrite <- !app_assoc.
  - apply Forall_app in Ht as [_ Ht]. apply Forall_cons in Ht as [Hx _]. done.
Qed.

Lemma fence_no_vacia : fence ≠ [].
Proof. done. Qed.

Lemma fence_python_no_vacia : fence_python ≠ [].
Proof. done. Qed.

Lemma Contiene_fence_python (s : str) :
  Contiene fence_python s → Contiene fence s.
Proof.
  intros (pre & post & ->).
  exists pre, (lit "python" ++ post).
  f_equal.
Qed.

(** The closing fence is removed and nothing else, whatever the number of
    backticks the code ends with. *)
Lemma quitar_fence_final (inner : str) :
  ¬ Contiene fence inner → replace fence [] (inner ++ fence) = inner.
Proof.
  induction inner as [|c r IH]; intros Hno; [done|].
  destruct (startswith ((c :: r) ++ fence) fence) eqn:Hs.
  - rewrite replace_match by done.
    change (length fence) with 3%nat.
    destruct r as [|r0 [|r1 r2]]; simpl in Hs.
    + apply andb_true_iff in Hs as [->%N.eqb_eq _]. done.
    + apply andb_true_iff in Hs as [->%N.eqb_eq Hs].
      apply andb_true_iff in Hs as [->%N.eqb_eq _]. done.
    + exfalso. apply Hno.
      apply andb_true_iff in Hs as [->%N.eqb_eq Hs].
      apply andb_true_iff in Hs as [->%N.eqb_eq Hs].
      apply andb_true_iff in Hs as [->%N.eqb_eq _].
      by exists [], r2.
  - simpl app in *. rewrite replace_nomatch by done.
    f_equal. apply IH. intros Hr. by apply Hno, Contiene_cons.
Qed.

Lemma limpiar_con_python (inner : str) :
  ¬ Contiene fence inner → limpiar (entre_fences true inner) = inner.
Proof.
  intros Hno. unfold limpiar, entre_fences.
  rewrite replace_prefijo by done. cbn [app].
  rewrite (replace_no_ocurre fence_python).
  - by apply quitar_fence_final.
  - done.
  - intros Hc. apply Hno, Contiene_fence_python.
    apply (Contiene_no_termina_en (lit "```pytho") 110 inner fence);
      [by repeat constructor | exact Hc].
Qed.

Lemma limpiar_sin_etiqueta (inner : str) :
  ¬ Contiene fence inner → ¬ Contiene fence_python (fence ++ inner) →
  limpiar (entre_fences false inner) = inner.
Proof.
  intros Hno Hpy. unfold limpiar, entre_fences.
  rewrite (replace_no_ocurre fence_python).
  - rewrite replace_prefijo by done. by apply quitar_fence_final.
  - done.
  - intros Hc. apply Hpy.
    apply (Contiene_no_termina_en (lit "```pytho") 110 (fence ++ inner) fence);
      [by repeat constructor | by rewrite <- app_assoc].
Qed.

Section Limpieza.
Context {lc : LangChain}.

(** C4, amended: the text handed to [exec] is the output of the chain
    with the two replacements applied and nothing else; and for code that
    contains no triple backtick, wrapped in fences, the text executed is
    that code unchanged (with an untagged fence, provided that the fence
    and the start of the code do not spell the tagged fence). *)
Theorem solo_se_limpian_fences :
  (∀ pregunta df script,
     salida_cadena plantilla_generar_grafico
       (valores_generar_grafico pregunta (columnas_info df) (len df)) = Ok script →
     generar_grafico pregunta df
     = Do (Exec (replace fence [] (replace fence_python [] script))
             (exec_globals df))
          (fun _ => Ret (PStr []))) ∧
  (∀ inner, ¬ Contiene fence inner →
     limpiar (entre_fences true inner) = inner ∧
     (¬ Contiene fence_python (fence ++ inner) →
      limpiar (entre_fences false inner) = inner)).
Proof.
  split.
  - intros pregunta df script Hs. by rewrite generar_grafico_forma, Hs.
  - intros inner Hno. split; [by apply limpiar_con_python|].
    intros Hpy. by apply limpiar_sin_etiqueta.
Qed.
End Limpieza.

Lemma solo_se_limpian_fences_witness :
  (∃ script,
     @generar_grafico Ejemplo.langchain_pasa (lit "barras") Ejemplo.df
     = Do (Exec (replace fence [] (replace fence_python [] script))
             (exec_globals Ejemplo.df))
          (fun _ => Ret (PStr []))) ∧
  limpiar (entre_fences true (lineas [vacia; "sns.set_theme()"; "plt.show()"; vacia]%string))
  = lineas [vacia; "sns.set_theme()"; "plt.show()"; vacia]%string ∧
  limpiar (entre_fences false (lineas [vacia; "sns.set_theme()"; "plt.show()"; vacia]%string))
  = lineas [vacia; "sns.set_theme()"; "plt.show()"; vacia]%string.
Proof.
  pose proof (solo_se_limpian_fences (lc:=Ejemplo.langchain_pasa)) as [Hexec Hfence].
  split.
  - eexists. apply Hexec. vm_compute. reflexivity.
  - destruct (Hfence (lineas [vacia; "sns.set_theme()"; "plt.show()"; vacia]%string))
      as [Hcon Hsin].
    + apply py_in_false. vm_compute. reflexivity.
    + split; [exact Hcon|]. apply Hsin.
      apply py_in_false. vm_compute. reflexivity.
Defined.

(** C4 as stated fails: code that holds a triple backtick of its own
    loses it, and untagged code that starts with [python] loses the word. *)
Lemma fences_contraejemplo :
  ¬ (∀ (con_python : bool) (inner : str),
       limpiar (entre_fences con_python inner) = inner).
Proof.
  intros Hall.
  pose proof (Hall true (lit "plt.title('```')")) as Hc.
  vm_compute in Hc. discriminate Hc.
Qed.

Example fences_contraejemplo_sin_etiqueta :
  limpiar (entre_fences false (lit "python_version = 3")) = lit "_version = 3".
Proof. vm_compute. reflexivity. Qed.

Example fences_contraejemplo_interior :
  limpiar (entre_fences true (lit "plt.title('```')")) = lit "plt.title('')".
Proof. vm_compute. reflexivity. Qed.

(** * Further properties of herramientas.py *)

Local Set Warnings "-clear-no-such-hyp".

(** ** What [limpiar] leaves behind *)

Lemma replace_fence_cabeza (s : str) :
  startswith (replace fence [] s) fence = false.
Proof.
  remember (length s) as n eqn:Hn. assert (length s ≤ n)%nat as Hle by lia.
  clear Hn. revert s Hle. induction n as [|n IH]; intros s Hle.
  { destruct s; [done | simpl in Hle; lia]. }
  destruct s as [|c s']; [done|].
  destruct (startswith (c :: s') fence) eqn:Hs.
  - rewrite replace_match by done. cbn [app].
    apply IH. rewrite length_drop. simpl in *. lia.
  - rewrite replace_nomatch by done.
    destruct (N.eqb_spec c 96) as [->|Hc]; [|by simpl; apply N.eqb_neq in Hc; rewrite Hc].
    destruct s' as [|x s'']; [done|].
    destruct (N.eqb_spec x 96) as [->|Hx].
    + destruct s'' as [|y s3]; [done|].
      destruct (N.eqb_spec y 96) as [->|Hy]; [done|].
      rewrite (replace_nomatch fence [] 96 (y :: s3)) by
        (try done; simpl; apply N.eqb_neq in Hy; by rewrite Hy).
      rewrite (replace_nomatch fence [] y s3) by
        (try done; simpl; apply N.eqb_neq in Hy; by rewrite Hy).
      simpl. apply N.eqb_neq in Hy. by rewrite Hy.
    + rewrite (replace_nomatch fence [] x s'') by
        (try done; simpl; apply N.eqb_neq in Hx; by rewrite Hx).
      simpl. apply N.eqb_neq in Hx. by rewrite Hx.
Qed.

Lemma replace_fence_sin_fence (s : str) :
  py_in fence (replace fence [] s) = false.
Proof.
  remember (length s) as n eqn:Hn. assert (length s ≤ n)%nat as Hle by lia.
  clear Hn. revert s Hle. induction n as [|n IH]; intros s Hle.
  { destruct s; [done | simpl in Hle; lia]. }
  destruct s as [|c s']; [done|].
  destruct (startswith (c :: s') fence) eqn:Hs.
  - rewrite replace_match by done. cbn [app].
    apply IH. rewrite length_drop. simpl in *. lia.
  - pose proof (replace_fence_cabeza (c :: s')) as Hcab.
    rewrite replace_nomatch in * by done.
    rewrite py_in_unfold, Hcab. simpl.
    apply IH. simpl in *. lia.
Qed.

Lemma limpiar_no_contiene (script : str) : ¬ Contiene fence (limpiar script).
Proof.
  apply py_in_false. unfold limpiar. apply replace_fence_sin_fence.
Qed.

(** X1: whatever the chain produced, the text handed to [exec] holds no
    triple backtick. *)
Theorem limpiar_sin_fence (script : str) : ¬ Contiene fence (limpiar script).
Proof.
  intros Hc. by apply (limpiar_no_contiene script).
Qed.

(** X2: [limpiar] changes a text exactly when the text holds a triple
    backtick; cleaning twice is cleaning once. *)
Theorem limpiar_fijo (script : str) :
  (limpiar script = script ↔ ¬ Contiene fence script) ∧
  limpiar (limpiar script) = limpiar script.
Proof.
  assert (∀ t, ¬ Contiene fence t → limpiar t = t) as Hfijo.
  { intros t Hno. unfold limpiar.
    rewrite (replace_no_ocurre fence_python) by
      (try done; intros Hc; by apply Hno, Contiene_fence_python).
    by apply replace_no_ocurre. }
  split; [split|].
  - intros E. rewrite <- E. apply limpiar_no_contiene.
  - apply Hfijo.
  - apply Hfijo, limpiar_no_contiene.
Qed.

Lemma replace_borra_sublista (old s : str) :
  old ≠ [] → sublist (replace old [] s) s.
Proof.
  intros Hold.
  remember (length s) as n eqn:Hn. assert (length s ≤ n)%nat as Hle by lia.
  clear Hn. revert s Hle. induction n as [|n IH]; intros s Hle.
  { destruct s; [by rewrite replace_nil | simpl in Hle; lia]. }
  destruct s as [|c s']; [by rewrite replace_nil|].
  destruct (startswith (c :: s') old) eqn:Hs.
  - rewrite replace_match by done. cbn [app].
    etrans; [apply IH | apply sublist_drop].
    rewrite length_drop. simpl in *. destruct old; [done|]. simpl. lia.
  - rewrite replace_nomatch by done. apply sublist_skip, IH. simpl in *. lia.
Qed.

(** X3: cleaning only deletes characters: the text handed to [exec] is
    the chain's text with some characters left out, none added and none
    moved. *)
Theorem limpiar_sublista (script : str) : sublist (limpiar script) script.
Proof.
  unfold limpiar.
  etrans; apply replace_borra_sublista; done.
Qed.

(** ** Outcomes of the tools *)

Section Resultados.
Context {pd : Pandas} {lc : LangChain} {uc : Unicode}.

(** X4: [generar_grafico] reaches [exec] exactly when its chain yields a
    text, and then calls it once; an exception of [exec] is the outcome of
    the tool (nothing catches it), otherwise the tool returns the empty
    string; the state after the tool is the one [exec] left. *)
Theorem generar_grafico_resultado {W} (h : Manejadores W)
    (pregunta : str) (df : DataFrame) (s : DataFrame * W) :
  match salida_cadena plantilla_generar_grafico
          (valores_generar_grafico pregunta (columnas_info df) (len df)) with
  | Ok script =>
      correr h (generar_grafico pregunta df) s
      = (match (m_exec h (limpiar script) (exec_globals df) s).1 with
         | Ok _ => Ok (PStr [])
         | Err e => Err e
         end,
         (m_exec h (limpiar script) (exec_globals df) s).2,
         [Exec (limpiar script) (exec_globals df)])
  | Err e => correr h (generar_grafico pregunta df) s = (Err e, s, [])
  end.
Proof.
  rewrite generar_grafico_forma.
  destruct (salida_cadena _ _) as [script|e]; [|done]. simpl.
  by destruct (m_exec h (limpiar script) (exec_globals df) s) as [[[]|e] s'].
Qed.

(** X5: [resumen_estadistico] makes no call and changes nothing; when
    [describe] raises, that exception is the outcome and the template is
    not rendered; otherwise the outcome is the one of the chain on the
    question and the statistics. *)
Theorem resumen_estadistico_resultado {W} (h : Manejadores W)
    (pregunta : str) (df : DataFrame) (s : DataFrame * W) :
  correr h (resumen_estadistico pregunta df) s
  = (match describe_number_to_string df with
     | Ok resumen =>
         PStr <$> salida_cadena plantilla_resumen_estadistico
                    [(lit "pregunta", pregunta); (lit "resumen", resumen)]
     | Err e => Err e
     end, s, []).
Proof.
  rewrite resumen_estadistico_forma, correr_lift.
  by destruct (describe_number_to_string df).
Qed.

(** X6: on a question written in Latin-1, the correlation branch is taken
    exactly when "correl" or "relación" occurs in the question up to the
    case of its letters. *)
Theorem clasificador_latin1 (pregunta : str) :
  Forall (fun c => c < 256) pregunta →
  es_correlacion pregunta = true ↔
  Contiene_sin_caja correl pregunta ∨ Contiene_sin_caja relacion pregunta.
Proof.
  intros Hl. rewrite es_correlacion_true. split.
  - intros [Hc|Hr]; [left|right]; by apply (contiene_lower_latin1 lower_ext).
  - intros [Hc|Hr]; [left|right]; apply lower_contiene;
      auto using correl_minuscula, relacion_minuscula.
Qed.

End Resultados.

Lemma clasificador_latin1_witness :
  @es_correlacion Ejemplo.unicode (lit "Correlacion de precio") = true ∧
  ¬ (Contiene_sin_caja correl (lit "df.describe()") ∨
     Contiene_sin_caja relacion (lit "df.describe()")).
Proof.
  split.
  - apply (clasificador_latin1 (uc:=Ejemplo.unicode)).
    + apply (bool_decide_unpack _). vm_compute. reflexivity.
    + left. exists [], (lit "Correl"), (lit "acion de precio").
      split; [vm_compute; reflexivity|].
      let mid := eval vm_compute in (lit "Correl") in
      change (lit "Correl") with mid.
      unfold correl.
      constructor; [right; split; [reflexivity|lia]|].
      repeat (constructor; [by left|]). constructor.
  - intros Hc.
    apply (clasificador_latin1 (uc:=Ejemplo.unicode)) in Hc.
    + vm_compute in Hc. discriminate Hc.
    + apply (bool_decide_unpack _). vm_compute. reflexivity.
Defined.

(** ** The column list of the prompts *)

Lemma join_contiene (sep p : str) (parts : list str) :
  p ∈ parts → Contiene p (join sep parts).
Proof.
  induction parts as [|q parts IH]; intros Hin; [by apply elem_of_nil in Hin|].
  apply elem_of_cons in Hin as [->|Hin].
  - destruct parts as [|q' parts]; [by exists [], []; rewrite app_nil_r|].
    exists [], (sep ++ join sep (q' :: parts)). done.
  - destruct parts as [|q' parts]; [by apply elem_of_nil in Hin|].
    change (join sep (q :: q' :: parts)) with (q ++ sep ++ join sep (q' :: parts)).
    apply Contiene_app_r, Contiene_app_r. by apply IH.
Qed.

(** X7: the column list sent in the chart and insights prompts is empty
    for a dataset without columns and otherwise holds, for every column,
    the line [- name (dtype)]. *)
Theorem columnas_info_lineas (df : DataFrame) :
  (columnas df = [] → columnas_info df = []) ∧
  (∀ col dtype, (col, dtype) ∈ columnas df →
     Contiene (lit "- " ++ col ++ lit " (" ++ dtype ++ lit ")") (columnas_info df)).
Proof.
  unfold columnas_info, dtypes_items. split.
  - by intros ->.
  - intros col dtype Hin. apply join_contiene.
    apply list_elem_of_In, in_map_iff. exists (col, dtype).
    split; [done | by apply list_elem_of_In].
Qed.

Lemma columnas_info_lineas_witness :
  Contiene (lit "- zona (object)") (columnas_info Ejemplo.df) ∧
  columnas_info {| columnas := []; filas := [] |} = [].
Proof.
  split.
  - apply (proj2 (columnas_info_lineas Ejemplo.df) (lit "zona") (lit "object")).
    apply list_elem_of_further, list_elem_of_here.
  - apply (proj1 (columnas_info_lineas {| columnas := []; filas := [] |})).
    reflexivity.
Defined.

(** ** The prompts of the four report tools *)

Ltac render_fijo :=
  intros; vm_compute; reflexivity.

(** X8: with the bindings each tool supplies, rendering its template
    never raises, and the prompt is the template text with every
    placeholder replaced by the bound value, taken as it is (braces in a
    question are not read as placeholders). *)
Theorem prompts_renderizados :
  (∃ a b c d,
     texto_plantilla_informacion_df
     = a ++ lit "{pregunta}" ++ b ++ lit "{n_filas}" ++ c ++ lit "{n_columnas}" ++ d ∧
     ∀ pregunta nf nc,
       format_prompt plantilla_informacion_df
         (valores_informacion_df pregunta nf nc)
       = Ok (a ++ pregunta ++ b ++ str_of_N nf ++ c ++ str_of_N nc ++ d)) ∧
  (∃ a b c,
     texto_plantilla_resumen_estadistico
     = a ++ lit "{pregunta}" ++ b ++ lit "{resumen}" ++ c ∧
     ∀ pregunta resumen,
       format_prompt plantilla_resumen_estadistico
         [(lit "pregunta", pregunta); (lit "resumen", resumen)]
       = Ok (a ++ pregunta ++ b ++ resumen ++ c)) ∧
  (∃ a b c d,
     texto_plantilla_generar_grafico
     = a ++ lit "{pregunta}" ++ b ++ lit "{num_filas}" ++ c ++ lit "{columnas}" ++ d ∧
     ∀ pregunta columnas num_filas,
       format_prompt plantilla_generar_grafico
         (valores_generar_grafico pregunta columnas num_filas)
       = Ok (a ++ pregunta ++ b ++ str_of_N num_filas ++ c ++ columnas ++ d)) ∧
  (∃ a b c,
     texto_plantilla_generar_insights
     = a ++ lit "{pregunta}" ++ b ++ lit "{columnas}" ++ c ∧
     ∀ pregunta columnas,
       format_prompt plantilla_generar_insights
         [(lit "pregunta", pregunta); (lit "columnas", columnas)]
       = Ok (a ++ pregunta ++ b ++ columnas ++ c)).
Proof.
  repeat split.
  - exists (take 145 texto_plantilla_informacion_df),
      (take 18 (drop 155 texto_plantilla_informacion_df)),
      (take 21 (drop 182 texto_plantilla_informacion_df)),
      (drop 215 texto_plantilla_informacion_df).
    split; [vm_compute; reflexivity|].
    intros pregunta nf nc. unfold valores_informacion_df.
    generalize (str_of_N nf) (str_of_N nc). render_fijo.
  - exists (take 85 texto_plantilla_resumen_estadistico),
      (take 32 (drop 95 texto_plantilla_resumen_estadistico)),
      (drop 136 texto_plantilla_resumen_estadistico).
    split; [vm_compute; reflexivity|]. render_fijo.
  - exists (take 113 texto_plantilla_generar_grafico),
      (take 35 (drop 123 texto_plantilla_generar_grafico)),
      (take 27 (drop 169 texto_plantilla_generar_grafico)),
      (drop 206 texto_plantilla_generar_grafico).
    split; [vm_compute; reflexivity|].
    intros pregunta columnas num_filas. unfold valores_generar_grafico.
    generalize (str_of_N num_filas). render_fijo.
  - exists (take 58 texto_plantilla_generar_insights),
      (take 36 (drop 68 texto_plantilla_generar_insights)),
      (drop 114 texto_plantilla_generar_insights).
    split; [vm_compute; reflexivity|]. render_fijo.
Qed.

(** A question with braces goes into the prompt unread. *)
Example prompt_con_llaves :
  ∃ a c,
    format_prompt plantilla_generar_insights
      [(lit "pregunta", lit "{columnas} y {otra}"); (lit "columnas", lit "- a (int64)")]
    = Ok (a ++ lit "{columnas} y {otra}" ++ c).
Proof. do 2 eexists. vm_compute. 
  match goal with |- Ok ?l = _ =>
    instantiate (1 := drop 77 l); instantiate (1 := take 58 l) end.
  vm_compute. reflexivity.
Qed.

(** ** The duplicate count of the general report *)

Lemma despues_duplicados (nf nc : N) (Z : str) :
  despues_de (marca_de Duplicados)
    (informe_general_0 ++ str_of_N nf ++ informe_general_1 ++
     str_of_N nc ++ informe_general_2 ++ Z) = Some Z.
Proof.
  destruct (str_of_N_cons nf) as (d & ds & -> & Hd).
  destruct (str_of_N_cons nc) as (e & es & -> & He).
  pose proof Hd as [Hd0 _]%Forall_cons. pose proof He as [He0 _]%Forall_cons.
  assert (∀ R, despues_de (marca_de Duplicados) (informe_general_0 ++ d :: R)
               = despues_de (marca_de Duplicados) (d :: R)) as Hpasa0.
  { intros R.
    destruct (es_digito_casos d Hd0)
      as [->|[->|[->|[->|[->|[->|[->|[->|[->| ->]]]]]]]]];
      vm_compute; reflexivity. }
  assert (∀ R, despues_de (marca_de Duplicados) (informe_general_1 ++ e :: R)
               = despues_de (marca_de Duplicados) (e :: R)) as Hpasa1.
  { intros R.
    destruct (es_digito_casos e He0)
      as [->|[->|[->|[->|[->|[->|[->|[->|[->| ->]]]]]]]]];
      vm_compute; reflexivity. }
  cbn [app]. rewrite Hpasa0.
  transitivity (despues_de (marca_de Duplicados)
                  (informe_general_1 ++ e :: es ++ informe_general_2 ++ Z)).
  { apply (despues_de_digitos _ (d :: ds)). done. }
  rewrite Hpasa1.
  transitivity (despues_de (marca_de Duplicados) (informe_general_2 ++ Z)).
  { apply (despues_de_digitos _ (e :: es)). done. }
  vm_compute. reflexivity.
Qed.

Section Duplicados.
Context {pd : Pandas} {lc : LangChain}.

(** X9: [informacion_df] makes no call and changes nothing.  When its
    chain raises, that exception is the outcome and no report comes back;
    when the chain yields a narrative, the report comes back and its rows
    [Filas], [Columnas] and [Duplicados] state the two components of
    [df.shape] and [df.duplicated().sum()]. *)
Theorem informacion_df_resultado {W} (h : Manejadores W)
    (pregunta : str) (df : DataFrame) (s : DataFrame * W) :
  match salida_cadena plantilla_informacion_df
          (valores_informacion_df pregunta (shape df).1 (shape df).2) with
  | Ok narrativa =>
      ∃ informe,
        correr h (informacion_df pregunta df) s = (Ok (PStr informe), s, []) ∧
        valor_declarado Filas informe = Some (N.of_nat (length (filas df))) ∧
        valor_declarado Columnas informe = Some (N.of_nat (length (columnas df))) ∧
        valor_declarado Duplicados informe = Some (duplicated_sum df)
  | Err e => correr h (informacion_df pregunta df) s = (Err e, s, [])
  end.
Proof.
  rewrite informacion_df_forma, correr_lift.
  destruct (salida_cadena _ _) as [narrativa|e]; [|done].
  eexists. split; [reflexivity|].
  split; [apply informe_general_filas|].
  split; [apply informe_general_columnas|].
  unfold valor_declarado, informe_general. rewrite despues_duplicados.
  unfold informe_general_3. cbn [app mbind option_bind].
  apply leer_campo_str_of_N.
Qed.
End Duplicados.

(** On the sample frame the third row repeats the first. *)
Example informe_ejemplo_duplicados :
  ∃ informe,
    @informacion_df Ejemplo.pandas Ejemplo.langchain_pasa
      (lit "Reporte general del DataFrame") Ejemplo.df = Ret (PStr informe) ∧
    valor_declarado Filas informe = Some 3 ∧
    valor_declarado Columnas informe = Some 2 ∧
    valor_declarado Duplicados informe = Some 1.
Proof. eexists. split; [reflexivity|]. vm_compute. done. Qed.

(** ** The registry as a dictionary *)

Section Diccionario.
Context {pd : Pandas} {lc : LangChain} {uc : Unicode}.

Lemma tool_dict_desde_ultimo (tools : list StructuredTool)
    (d : gmap str StructuredTool) (n : str) :
  foldl (fun d t => <[name t := t]> d) d tools !! n
  = match last (filter (fun t => name t = n) tools) with
    | Some t => Some t
    | None => d !! n
    end.
Proof.
  revert d. induction tools as [|t tools IH]; intros d; [done|].
  simpl. rewrite IH, filter_cons.
  destruct (decide (name t = n)) as [<-|Hne].
  - rewrite last_cons, lookup_insert_eq.
    by destruct (last (filter _ tools)).
  - by rewrite lookup_insert_ne.
Qed.

(** X10: the comprehension [{t.name: t for t in tools}] keeps, for each
    name, the last tool of the list that carries it, and nothing under
    any other name. *)
Theorem tool_dict_ultimo (tools : list StructuredTool) (n : str) :
  tool_dict tools !! n = last (filter (fun t => name t = n) tools).
Proof.
  unfold tool_dict. rewrite tool_dict_desde_ultimo.
  by destruct (last (filter _ tools)).
Qed.

Lemma tool_dict_dom (tools : list StructuredTool) :
  dom (tool_dict tools) = (list_to_set (name <$> tools) : gset str).
Proof.
  unfold tool_dict.
  assert (∀ d : gmap str StructuredTool,
            dom (foldl (fun d t => <[name t := t]> d) d tools)
            = (list_to_set (name <$> tools) ∪ dom d : gset str)) as Hgen.
  { induction tools as [|t tools IH]; intros d; simpl.
    - set_solver.
    - rewrite IH, dom_insert_L. set_solver. }
  rewrite Hgen, dom_empty_L. set_solver.
Qed.

(** X11: the registry that app.py builds holds exactly five tools, under
    the five names given in [crear_herramientas]. *)
Theorem registro_cinco_nombres (df : DataFrame) :
  dom (tool_dict (crear_herramientas df))
  = ({[ lit "Informaciones DF"; lit "Resumen Estadístico"; lit "Generar Gráfico";
        lit "Herramienta Python"; lit "Informe de Insights" ]} : gset str) ∧
  size (tool_dict (crear_herramientas df)) = 5%nat.
Proof.
  assert (dom (tool_dict (crear_herramientas df))
          = ({[ lit "Informaciones DF"; lit "Resumen Estadístico";
                lit "Generar Gráfico"; lit "Herramienta Python";
                lit "Informe de Insights" ]} : gset str)) as Hdom.
  { rewrite tool_dict_dom, crear_herramientas_nombres. simpl. set_solver. }
  split; [done|].
  rewrite <- size_dom, tool_dict_dom, size_list_to_set.
  - by rewrite crear_herramientas_nombres.
  - apply crear_herramientas_NoDup.
Qed.

End Diccionario.

(** * Further properties of app.py *)

(** ** Blank requests *)

Lemma lstrip_nil (s : str) : lstrip s = [] ↔ en_blanco s.
Proof.
  unfold en_blanco. induction s as [|c s IH]; [done|]. simpl.
  destruct (isspace c) eqn:Hc.
  - rewrite IH. split; [by constructor | by intros [_ ?]%Forall_cons].
  - split; [done | intros [Hc' _]%Forall_cons; congruence].
Qed.

Lemma lstrip_en_blanco (s : str) : en_blanco (lstrip s) → en_blanco s.
Proof.
  unfold en_blanco. induction s as [|c s IH]; [done|]. simpl.
  destruct (isspace c) eqn:Hc; [|done].
  intros Hs. constructor; [done | by apply IH].
Qed.

(** [s.strip() == ""] holds exactly for the texts of white space only. *)
Lemma strip_nil (s : str) : strip s = [] ↔ en_blanco s.
Proof.
  unfold strip. split.
  - intros E. apply (f_equal (@rev N)) in E. rewrite rev_involutive in E.
    simpl in E. apply lstrip_nil in E. apply lstrip_en_blanco.
    unfold en_blanco in *. rewrite <- (rev_involutive (lstrip s)).
    by apply Forall_rev.
  - intros Hs. apply lstrip_nil in Hs. by rewrite Hs.
Qed.

Section Botones.
Context {pd : Pandas} {lc : LangChain} {uc : Unicode}.

(** X12: a chart request or a question made of white space only (or
    empty) gets the warning and nothing else: no tool is looked up or
    run and the chat model is not called. *)
Theorem peticion_en_blanco (d : gmap str StructuredTool) (cliente : ChatGroq)
    (df : DataFrame) (pedido : str) :
  en_blanco pedido →
  boton_generar_grafico d pedido
  = Do (StWarning (lit "Por favor, describe el gráfico que deseas generar."))
       (fun _ => Ret tt) ∧
  boton_responder_pregunta cliente df pedido
  = Do (StWarning (lit "Por favor, escribe una pregunta.")) (fun _ => Ret tt).
Proof.
  intros Hb%strip_nil. unfold boton_generar_grafico, boton_responder_pregunta.
  by rewrite !bool_decide_eq_true_2.
Qed.

Lemma registro_informaciones (df : DataFrame) :
  tool_dict (crear_herramientas df) !! lit "Informaciones DF"
  = Some {| name := lit "Informaciones DF";
            func := fun pregunta => informacion_df pregunta df;
            description := lit "Devuelve un informe general del DataFrame.";
            return_direct := true |}.
Proof.
  apply (tool_dict_lookup (crear_herramientas df)
           {| name := lit "Informaciones DF";
              func := fun pregunta => informacion_df pregunta df;
              description := lit "Devuelve un informe general del DataFrame.";
              return_direct := true |});
    [apply crear_herramientas_NoDup | apply list_elem_of_here].
Qed.

Lemma registro_resumen (df : DataFrame) :
  tool_dict (crear_herramientas df) !! lit "Resumen Estadístico"
  = Some {| name := lit "Resumen Estadístico";
            func := fun pregunta => resumen_estadistico pregunta df;
            description := lit "Genera un análisis estadístico completo.";
            return_direct := true |}.
Proof.
  apply (tool_dict_lookup (crear_herramientas df)
           {| name := lit "Resumen Estadístico";
              func := fun pregunta => resumen_estadistico pregunta df;
              description := lit "Genera un análisis estadístico completo.";
              return_direct := true |});
    [apply crear_herramientas_NoDup |].
  apply list_elem_of_further, list_elem_of_here.
Qed.

Lemma registro_grafico (df : DataFrame) :
  tool_dict (crear_herramientas df) !! lit "Generar Gráfico"
  = Some {| name := lit "Generar Gráfico";
            func := fun pregunta => generar_grafico pregunta df;
            description := lit "Crea un gráfico basado en la solicitud del usuario.";
            return_direct := true |}.
Proof.
  apply (tool_dict_lookup (crear_herramientas df)
           {| name := lit "Generar Gráfico";
              func := fun pregunta => generar_grafico pregunta df;
              description := lit "Crea un gráfico basado en la solicitud del usuario.";
              return_direct := true |});
    [apply crear_herramientas_NoDup |].
  do 2 apply list_elem_of_further. apply list_elem_of_here.
Qed.

Lemma registro_insights (df : DataFrame) :
  tool_dict (crear_herramientas df) !! lit "Informe de Insights"
  = Some {| name := lit "Informe de Insights";
            func := fun pregunta => generar_insights pregunta df;
            description := lit "Genera un informe narrativo de insights del dataset.";
            return_direct := true |}.
Proof.
  apply (tool_dict_lookup (crear_herramientas df)
           {| name := lit "Informe de Insights";
              func := fun pregunta => generar_insights pregunta df;
              description := lit "Genera un informe narrativo de insights del dataset.";
              return_direct := true |});
    [apply crear_herramientas_NoDup |].
  do 4 apply list_elem_of_further. apply list_elem_of_here.
Qed.

Lemma botones_de_informe_forma (df : DataFrame) :
  boton_informe_general (tool_dict (crear_herramientas df))
  = Do (StSpinner (lit "Generando informe general…")) (fun _ =>
    informe ← informacion_df (lit "Reporte general del DataFrame") df;
    Do (StMarkdown informe) (fun _ =>
    Do (StDownloadButton (lit "📥 Descargar Informe General") informe
          (lit "informe_general.md")) (fun _ => Ret tt))) ∧
  boton_informe_estadistico (tool_dict (crear_herramientas df))
  = Do (StSpinner (lit "Generando análisis estadístico…")) (fun _ =>
    informe ← resumen_estadistico (lit "Resumen estadístico del DataFrame") df;
    Do (StMarkdown informe) (fun _ =>
    Do (StDownloadButton (lit "📥 Descargar Informe Estadístico") informe
          (lit "informe_estadistico.md")) (fun _ => Ret tt))) ∧
  boton_informe_insights (tool_dict (crear_herramientas df))
  = Do (StSpinner (lit "Generando insights…")) (fun _ =>
    informe ← generar_insights
                (lit "Genera un informe con los principales insights") df;
    Do (StMarkdown informe) (fun _ =>
    Do (StDownloadButton (lit "📥 Descargar Informe de Insights") informe
          (lit "informe_insights.md")) (fun _ => Ret tt))).
Proof.
  unfold boton_informe_general, boton_informe_estadistico,
    boton_informe_insights, con_herramienta.
  by rewrite registro_informaciones, registro_resumen, registro_insights.
Qed.

Lemma registro_python (df : DataFrame) :
  tool_dict (crear_herramientas df) !! lit "Herramienta Python"
  = Some {| name := lit "Herramienta Python";
            func := fun pregunta => ejecutar_python_inteligente pregunta df;
            description :=
              lit "Ejecuta análisis Python inteligentes sobre el DataFrame.";
            return_direct := true |}.
Proof.
  apply (tool_dict_lookup (crear_herramientas df)
           {| name := lit "Herramienta Python";
              func := fun pregunta => ejecutar_python_inteligente pregunta df;
              description :=
                lit "Ejecuta análisis Python inteligentes sobre el DataFrame.";
              return_direct := true |});
    [apply crear_herramientas_NoDup |].
  do 3 apply list_elem_of_further. apply list_elem_of_here.
Qed.

(** X13: over the registry of [crear_herramientas df], each report
    button runs its own tool on its fixed question, shows what the tool
    returned and offers that same value for download under its file
    name; if the tool raises, nothing is shown or offered. *)
Theorem botones_de_informe (df : DataFrame) :
  boton_informe_general (tool_dict (crear_herramientas df))
  = Do (StSpinner (lit "Generando informe general…")) (fun _ =>
    informe ← informacion_df (lit "Reporte general del DataFrame") df;
    Do (StMarkdown informe) (fun _ =>
    Do (StDownloadButton (lit "📥 Descargar Informe General") informe
          (lit "informe_general.md")) (fun _ => Ret tt))) ∧
  boton_informe_estadistico (tool_dict (crear_herramientas df))
  = Do (StSpinner (lit "Generando análisis estadístico…")) (fun _ =>
    informe ← resumen_estadistico (lit "Resumen estadístico del DataFrame") df;
    Do (StMarkdown informe) (fun _ =>
    Do (StDownloadButton (lit "📥 Descargar Informe Estadístico") informe
          (lit "informe_estadistico.md")) (fun _ => Ret tt))) ∧
  boton_informe_insights (tool_dict (crear_herramientas df))
  = Do (StSpinner (lit "Generando insights…")) (fun _ =>
    informe ← generar_insights
                (lit "Genera un informe con los principales insights") df;
    Do (StMarkdown informe) (fun _ =>
    Do (StDownloadButton (lit "📥 Descargar Informe de Insights") informe
          (lit "informe_insights.md")) (fun _ => Ret tt))).
Proof. apply botones_de_informe_forma. Qed.

(** X14: a chart request with some visible character runs
    [generar_grafico] on the request as typed, surrounding white space
    included, and discards what the tool returns. *)
Theorem boton_grafico_con_texto (df : DataFrame) (pedido : str) :
  ¬ en_blanco pedido →
  boton_generar_grafico (tool_dict (crear_herramientas df)) pedido
  = Do (StSpinner (lit "Generando gráfico…")) (fun _ =>
    _ ← generar_grafico pedido df; Ret tt).
Proof.
  intros Hb. unfold boton_generar_grafico, con_herramienta.
  rewrite bool_decide_eq_false_2 by (by rewrite strip_nil).
  by rewrite registro_grafico.
Qed.

End Botones.

Lemma peticion_en_blanco_witness :
  @boton_generar_grafico ∅ [32; 9; 10]
  = Do (StWarning (lit "Por favor, describe el gráfico que deseas generar."))
       (fun _ => Ret tt).
Proof.
  refine (proj1 (peticion_en_blanco (pd:=Ejemplo.pandas) ∅ (llm []) Ejemplo.df
                   [32; 9; 10] _)).
  repeat constructor.
Defined.

Lemma boton_grafico_con_texto_witness :
  boton_generar_grafico
    (tool_dict (@crear_herramientas Ejemplo.pandas Ejemplo.langchain_pasa
                  Ejemplo.unicode Ejemplo.df))
    (lit " barras ")
  = Do (StSpinner (lit "Generando gráfico…")) (fun _ =>
    _ ← @generar_grafico Ejemplo.langchain_pasa (lit " barras ") Ejemplo.df;
    Ret tt).
Proof.
  apply (boton_grafico_con_texto (pd:=Ejemplo.pandas) (lc:=Ejemplo.langchain_pasa)
           (uc:=Ejemplo.unicode) Ejemplo.df (lit " barras ")).
  intros Hb. apply strip_nil in Hb. vm_compute in Hb. discriminate Hb.
Defined.

(** ** The calls a page can make *)

Lemma Todas_correr {W A} (P : Llamada → Prop) (h : Manejadores W)
    (p : Prog A) (s : DataFrame * W) :
  Todas P p → Forall P (traza (correr h p s)).
Proof.
  intros Hp. revert s. induction Hp as [a|e|c k Hc _ IH]; intros s;
    [constructor..|].
  unfold traza in *. simpl.
  destruct (manejar h c s) as [[x|e] s']; [|by repeat constructor].
  specialize (IH x s'). destruct (correr h (k x) s') as [[r s''] t].
  by constructor.
Qed.

Lemma Todas_lift {A} (P : Llamada → Prop) (r : Res A) : Todas P (lift r).
Proof. destruct r; constructor. Qed.

Lemma Todas_bind {A B} (P : Llamada → Prop) (f : A → Prog B) (p : Prog A) :
  Todas P p → (∀ a, Todas P (f a)) → Todas P (bind f p).
Proof.
  intros Hp Hf. induction Hp as [a|e|c k Hc _ IH]; simpl;
    [apply Hf | constructor | by constructor].
Qed.

Section LlamadasDePagina.
Context {pd : Pandas} {lc : LangChain} {uc : Unicode}.

Lemma Todas_mostrar_informe (P : Llamada → Prop) (p : Prog PyVal)
    (etiqueta archivo : str) :
  Todas P p →
  (∀ v, P (StMarkdown v)) → (∀ v, P (StDownloadButton etiqueta v archivo)) →
  Todas P (informe ← p;
           Do (StMarkdown informe) (fun _ =>
           Do (StDownloadButton etiqueta informe archivo) (fun _ => Ret tt))).
Proof.
  intros Hp Hm Hd. apply Todas_bind; [done|]. intros v.
  constructor; [done|]. intros _. constructor; [done|]. intros _. constructor.
Qed.

Lemma Todas_generar_grafico (P : Llamada → Prop) (pedido : str) (df : DataFrame) :
  (∀ script, P (Exec script (exec_globals df))) →
  Todas P (generar_grafico pedido df).
Proof.
  intros He. rewrite generar_grafico_forma.
  destruct (salida_cadena _ _); constructor; [done|]. intros _. constructor.
Qed.

(** What every handler of the page satisfies, given what [P] allows: the
    widgets, [exec] with the namespace of the chart tool, and the chat
    model with the page's client and the text of the direct question. *)
Lemma Todas_manejadores (P : Llamada → Prop) (cliente : ChatGroq)
    (df : DataFrame) (pregunta_grafico pregunta : str) :
  (∀ c, es_llm c = false → es_exec c = false → es_repl c = false → P c) →
  (∀ script, P (Exec script (exec_globals df))) →
  P (LlmInvoke cliente (mensaje_directo (repr_lista (columns df)) pregunta)) →
  Forall (Todas P) (manejadores_de_pagina cliente df pregunta_grafico pregunta).
Proof.
  intros Hui Hexec Hllm. unfold manejadores_de_pagina. cbv zeta.
  destruct (botones_de_informe_forma df) as (-> & -> & ->).
  constructor; [|constructor; [|constructor; [|constructor;
    [|constructor; [|constructor]]]]].
  - constructor; [by apply Hui|]. intros _.
    apply Todas_mostrar_informe; [|intros; by apply Hui..].
    rewrite informacion_df_forma. apply Todas_lift.
  - constructor; [by apply Hui|]. intros _.
    apply Todas_mostrar_informe; [|intros; by apply Hui..].
    rewrite resumen_estadistico_forma. apply Todas_lift.
  - unfold boton_generar_grafico. case_bool_decide.
    + constructor; [by apply Hui|]. intros _. constructor.
    + constructor; [by apply Hui|]. intros _.
      unfold con_herramienta. rewrite registro_grafico.
      apply Todas_bind; [by apply Todas_generar_grafico|]. intros _. constructor.
  - constructor; [by apply Hui|]. intros _.
    apply Todas_mostrar_informe; [|intros; by apply Hui..].
    rewrite generar_insights_forma. apply Todas_lift.
  - unfold boton_responder_pregunta. case_bool_decide.
    + constructor; [by apply Hui|]. intros _. constructor.
    + constructor; [by apply Hui|]. intros _.
      constructor; [done|]. intros respuesta.
      constructor; [by apply Hui|]. intros _. constructor.
Qed.

(** X15: no button of the page reaches the Python tool: whatever is
    clicked or typed and whatever the outside world answers, a run of a
    page handler never calls the AST REPL. *)
Theorem pagina_nunca_llama_al_repl {W} (h : Manejadores W) (cliente : ChatGroq)
    (df : DataFrame) (pregunta_grafico pregunta : str) (s : DataFrame * W) :
  Forall (fun p => Forall (fun c => es_repl c = false) (traza (correr h p s)))
    (manejadores_de_pagina cliente df pregunta_grafico pregunta).
Proof.
  eapply Forall_impl;
    [apply (Todas_manejadores (fun c => es_repl c = false))|]; try done.
  intros p Hp. by apply Todas_correr.
Qed.

(** X16: every call to the chat model in a run of a page handler is
    made with the page's client (model "llama-3.3-70b-versatile",
    temperature 0) and carries the text assembled from the column list and
    the typed question. *)
Theorem pagina_llama_al_modelo_fijo {W} (h : Manejadores W) (clave : str)
    (df : DataFrame) (pregunta_grafico pregunta : str) (s : DataFrame * W) :
  Forall (fun p =>
            Forall (fun c =>
                      match c with
                      | LlmInvoke cliente mensaje =>
                          api_key cliente = clave ∧
                          model cliente = lit "llama-3.3-70b-versatile" ∧
                          temperature cliente = 0%Z ∧
                          mensaje = mensaje_directo (repr_lista (columns df)) pregunta
                      | _ => True
                      end)
              (traza (correr h p s)))
    (manejadores_de_pagina (llm clave) df pregunta_grafico pregunta).
Proof.
  eapply Forall_impl;
    [apply (Todas_manejadores
              (fun c => match c with
                        | LlmInvoke cliente mensaje =>
                            api_key cliente = clave ∧
                            model cliente = lit "llama-3.3-70b-versatile" ∧
                            temperature cliente = 0%Z ∧
                            mensaje
                            = mensaje_directo (repr_lista (columns df)) pregunta
                        | _ => True
                        end))|]; try done.
  - by intros [].
  - intros p Hp. by apply Todas_correr.
Qed.

(** X17: of the handlers of the page, only the chart button can change
    the dataset: a run of any other handler ends with the dataset it
    started with. *)
Theorem pagina_solo_grafico_muta {W} (h : Manejadores W) (cliente : ChatGroq)
    (df : DataFrame) (pregunta : str) (s : DataFrame * W) :
  Forall (fun p => dataset_final (correr h p s) = s.1)
    [boton_informe_general (tool_dict (crear_herramientas df));
     boton_informe_estadistico (tool_dict (crear_herramientas df));
     boton_informe_insights (tool_dict (crear_herramientas df));
     boton_responder_pregunta cliente df pregunta].
Proof.
  assert (∀ A (p : Prog A), Todas (fun c => recibe_dataset c = false) p →
            dataset_final (correr h p s) = s.1) as Hmarco.
  { intros A p Hp. by apply marco, Todas_correr. }
  destruct (botones_de_informe_forma df) as (-> & -> & ->).
  repeat constructor; apply Hmarco.
  - constructor; [done|]. intros _.
    apply Todas_mostrar_informe; [|done..].
    rewrite informacion_df_forma. apply Todas_lift.
  - constructor; [done|]. intros _.
    apply Todas_mostrar_informe; [|done..].
    rewrite resumen_estadistico_forma. apply Todas_lift.
  - constructor; [done|]. intros _.
    apply Todas_mostrar_informe; [|done..].
    rewrite generar_insights_forma. apply Todas_lift.
  - unfold boton_responder_pregunta. case_bool_decide.
    + constructor; [done|]. intros _. constructor.
    + constructor; [done|]. intros _.
      constructor; [done|]. intros respuesta.
      constructor; [done|]. intros _. constructor.
Qed.

End LlamadasDePagina.

(** * The prompt templates of the tools *)

Lemma entrega_cadena (F : Res str → Prog PyVal) (r : Res str)
    (f : LangChain → option (Prog PyVal)) (e0 : Exn) :
  (∀ lc : LangChain, f lc = Some (F (r ≫= @parse_prompt_value lc))) →
  F (Ok []) ≠ F (Err e0) →
  ∀ T, entrega_al_parser f T ↔ r = Ok T.
Proof.
  intros Hf HF T. split.
  - intros (lc1 & lc2 & Higual & Hdistinto). rewrite !Hf in Hdistinto.
    destruct r as [T0|e]; [|done].
    destruct (decide (T0 = T)) as [->|Hotro]; [done|].
    exfalso. apply Hdistinto. unfold mbind, res_mbind. simpl.
    by rewrite (Higual T0 Hotro).
  - intros ->.
    exists {| parse_prompt_value :=
                fun t => if decide (t = T) then Ok [] else Err e0 |},
           {| parse_prompt_value := fun _ => Err e0 |}.
    split.
    + intros t Ht. simpl. by rewrite decide_False.
    + rewrite !Hf. unfold mbind, res_mbind. simpl.
      rewrite decide_True by done. intros [= E]. by apply HF.
Qed.

Section PlantillasDeHerramientas.
Context {pd : Pandas} {uc : Unicode}.

Lemma entrega_informacion_df (pregunta : str) (df : DataFrame) (T : str) :
  entrega_al_parser (programa_de (lit "Informaciones DF") pregunta df) T ↔
  format_prompt plantilla_informacion_df
    (valores_informacion_df pregunta (shape df).1 (shape df).2) = Ok T.
Proof.
  apply (entrega_cadena
           (fun x => lift ((fun narrativa =>
                              PStr (informe_general (shape df).1 (shape df).2
                                      (duplicated_sum df) (tabla_tipos df)
                                      (tabla_nulos df) narrativa)) <$> x))
           _ _ (KeyError [])); [|done].
  intros lc. unfold programa_de. rewrite registro_informaciones. simpl.
  unfold run. simpl. by rewrite informacion_df_forma.
Qed.

Lemma entrega_resumen_estadistico (pregunta : str) (df : DataFrame) (T : str) :
  entrega_al_parser (programa_de (lit "Resumen Estadístico") pregunta df) T ↔
  ∃ resumen,
    describe_number_to_string df = Ok resumen ∧
    format_prompt plantilla_resumen_estadistico
      [(lit "pregunta", pregunta); (lit "resumen", resumen)] = Ok T.
Proof.
  rewrite (entrega_cadena
             (fun x => lift (PStr <$> x))
             (resumen ← describe_number_to_string df;
              format_prompt plantilla_resumen_estadistico
                [(lit "pregunta", pregunta); (lit "resumen", resumen)])
             _ (KeyError [])); [| |done].
  - destruct (describe_number_to_string df) as [resumen|e]; simpl.
    + split; [by exists resumen | by intros (? & [= <-] & ?)].
    + split; [done | by intros (? & ? & ?)].
  - intros lc. unfold programa_de. rewrite registro_resumen. simpl.
    unfold run. simpl. rewrite resumen_estadistico_forma.
    by destruct (describe_number_to_string df).
Qed.

Lemma entrega_generar_grafico (pregunta : str) (df : DataFrame) (T : str) :
  entrega_al_parser (programa_de (lit "Generar Gráfico") pregunta df) T ↔
  format_prompt plantilla_generar_grafico
    (valores_generar_grafico pregunta (columnas_info df) (len df)) = Ok T.
Proof.
  apply (entrega_cadena
           (fun x => match x with
                     | Ok script =>
                         Do (Exec (limpiar script) (exec_globals df))
                            (fun _ => Ret (PStr []))
                     | Err e => Raise e
                     end)
           _ _ (KeyError [])); [|done].
  intros lc. unfold programa_de. rewrite registro_grafico. simpl.
  unfold run. simpl. by rewrite generar_grafico_forma.
Qed.

Lemma entrega_generar_insights (pregunta : str) (df : DataFrame) (T : str) :
  entrega_al_parser (programa_de (lit "Informe de Insights") pregunta df) T ↔
  format_prompt plantilla_generar_insights
    [(lit "pregunta", pregunta); (lit "columnas", columnas_info df)] = Ok T.
Proof.
  apply (entrega_cadena (fun x => lift (PStr <$> x)) _ _ (KeyError [])); [|done].
  intros lc. unfold programa_de. rewrite registro_insights. simpl.
  unfold run. simpl. by rewrite generar_insights_forma.
Qed.

Lemma python_no_entrega (pregunta : str) (df : DataFrame) (T : str) :
  ¬ entrega_al_parser (programa_de (lit "Herramienta Python") pregunta df) T.
Proof.
  intros (lc1 & lc2 & _ & Hdistinto). apply Hdistinto.
  unfold programa_de.
  by rewrite (registro_python (lc:=lc1)), (registro_python (lc:=lc2)).
Qed.

Lemma format_informacion_df_ok (pregunta : str) (nf nc : N) :
  ∃ T, format_prompt plantilla_informacion_df
         (valores_informacion_df pregunta nf nc) = Ok T.
Proof.
  unfold valores_informacion_df. generalize (str_of_N nf) (str_of_N nc).
  intros v1 v2. eexists. vm_compute. reflexivity.
Qed.

Lemma format_generar_grafico_ok (pregunta columnas : str) (n : N) :
  ∃ T, format_prompt plantilla_generar_grafico
         (valores_generar_grafico pregunta columnas n) = Ok T.
Proof.
  unfold valores_generar_grafico. generalize (str_of_N n).
  intros v. eexists. vm_compute. reflexivity.
Qed.

Lemma format_generar_insights_ok (pregunta columnas : str) :
  ∃ T, format_prompt plantilla_generar_insights
         [(lit "pregunta", pregunta); (lit "columnas", columnas)] = Ok T.
Proof. eexists. vm_compute. reflexivity. Qed.

(** C8, amended: the tools hold four prompt templates with four
    different texts, one in each of the four report tools: each of these
    hands to the parser of its chain the rendering of its own template and
    no other text ([resumen_estadistico] once [describe] has answered),
    and the rendering exists for every question and dataset.  The fifth
    tool, the Python tool, hands the parser nothing.  The direct question
    sends a text assembled in place to the chat model. *)
Theorem cuatro_plantillas (pregunta : str) (df : DataFrame) :
  (∀ T, entrega_al_parser (programa_de (lit "Informaciones DF") pregunta df) T ↔
        format_prompt plantilla_informacion_df
          (valores_informacion_df pregunta (shape df).1 (shape df).2) = Ok T) ∧
  (∀ T, entrega_al_parser (programa_de (lit "Resumen Estadístico") pregunta df) T ↔
        ∃ resumen,
          describe_number_to_string df = Ok resumen ∧
          format_prompt plantilla_resumen_estadistico
            [(lit "pregunta", pregunta); (lit "resumen", resumen)] = Ok T) ∧
  (∀ T, entrega_al_parser (programa_de (lit "Generar Gráfico") pregunta df) T ↔
        format_prompt plantilla_generar_grafico
          (valores_generar_grafico pregunta (columnas_info df) (len df)) = Ok T) ∧
  (∀ T, entrega_al_parser (programa_de (lit "Informe de Insights") pregunta df) T ↔
        format_prompt plantilla_generar_insights
          [(lit "pregunta", pregunta); (lit "columnas", columnas_info df)] = Ok T) ∧
  (∃ T, entrega_al_parser (programa_de (lit "Informaciones DF") pregunta df) T) ∧
  (∃ T, entrega_al_parser (programa_de (lit "Generar Gráfico") pregunta df) T) ∧
  (∃ T, entrega_al_parser (programa_de (lit "Informe de Insights") pregunta df) T) ∧
  (∀ T, ¬ entrega_al_parser (programa_de (lit "Herramienta Python") pregunta df) T) ∧
  NoDup [template plantilla_informacion_df; template plantilla_resumen_estadistico;
         template plantilla_generar_grafico; template plantilla_generar_insights] ∧
  (∀ cliente,
     strip pregunta ≠ [] →
     boton_responder_pregunta cliente df pregunta
     = Do (StSpinner (lit "Analizando…")) (fun _ =>
       Do (LlmInvoke cliente (mensaje_directo (repr_lista (columns df)) pregunta))
          (fun respuesta =>
       Do (StMarkdown (PStr respuesta)) (fun _ => Ret tt)))).
Proof.
  split; [apply entrega_informacion_df|].
  split; [apply entrega_resumen_estadistico|].
  split; [apply entrega_generar_grafico|].
  split; [apply entrega_generar_insights|].
  split.
  { destruct (format_informacion_df_ok pregunta (shape df).1 (shape df).2) as [T HT].
    exists T. by apply entrega_informacion_df. }
  split.
  { destruct (format_generar_grafico_ok pregunta (columnas_info df) (len df))
      as [T HT].
    exists T. by apply entrega_generar_grafico. }
  split.
  { destruct (format_generar_insights_ok pregunta (columnas_info df)) as [T HT].
    exists T. by apply entrega_generar_insights. }
  split; [apply python_no_entrega|].
  split.
  { apply (bool_decide_unpack _). vm_compute. reflexivity. }
  intros cliente Hp. unfold boton_responder_pregunta.
  by rewrite bool_decide_eq_false_2.
Qed.

End PlantillasDeHerramientas.

Lemma cuatro_plantillas_witness :
  @boton_responder_pregunta Ejemplo.pandas (llm (lit "gsk")) Ejemplo.df
    (lit "¿Cuántas filas hay?")
  = Do (StSpinner (lit "Analizando…")) (fun _ =>
    Do (LlmInvoke (llm (lit "gsk"))
          (mensaje_directo (lit "['precio', 'zona']") (lit "¿Cuántas filas hay?")))
       (fun respuesta =>
    Do (StMarkdown (PStr respuesta)) (fun _ => Ret tt))).
Proof.
  pose proof (cuatro_plantillas (pd:=Ejemplo.pandas) (uc:=Ejemplo.unicode)
                (lit "¿Cuántas filas hay?") Ejemplo.df)
    as (_ & _ & _ & _ & _ & _ & _ & _ & _ & Hdirecta).
  apply (Hdirecta (llm (lit "gsk"))).
  vm_compute. discriminate.
Defined.

(** C8 as stated fails: of the five registered tools, one hands no text
    to a parser, so the templates are not one per tool. *)
Lemma cinco_plantillas_contraejemplo :
  ¬ (∀ nombre,
       nombre ∈ name <$> @crear_herramientas Ejemplo.pandas Ejemplo.langchain_rechaza
                            Ejemplo.unicode Ejemplo.df →
       ∃ T, entrega_al_parser
              (@programa_de Ejemplo.pandas Ejemplo.unicode nombre
                 (lit "df.shape") Ejemplo.df) T).
Proof.
  intros Htodas.
  destruct (Htodas (lit "Herramienta Python")) as [T HT].
  - rewrite crear_herramientas_nombres.
    do 3 apply list_elem_of_further. apply list_elem_of_here.
  - by apply python_no_entrega in HT.
Qed.
